(** * reflex_flash_cards: the state of the flashcard application

    A shallow embedding of [FlashcardState]
    (src/reflex_flash_cards/reflex_flash_cards.py): the state variables,
    the computed variables ([filtered_flashcards], [visible_flashcards],
    [current_card], ...) and the event handlers, followed by the
    properties of the deck, of the projection and of the cursor.

    Conventions of the embedding.
    - A Python [int] is a [Z]; [len] is [Z.of_nat (length _)]; [%] with a
      positive divisor is [Z.modulo].
    - A [str] is a [string].  The built-in methods [str.strip] and
      [str.lower] are not code of the application: the development is
      parametric in them (class [PyStr]) and [ascii_str] gives them on
      ASCII text, for running the model.
    - A card is the dictionary with the three keys ["english"],
      ["vietnamese"] and ["learned"] that [add_flashcard] builds; it is a
      record, [==] on cards is structural equality of the three fields.
    - A list subscript raises [IndexError] out of range: code that
      subscripts returns a [result].
    - [save_flashcards] writes a file and catches every error; it changes
      no state variable and is left out. *)

From Stdlib Require Import List String Ascii ZArith Bool Lia.
From Stdlib Require Import Permutation Sorted DecimalString.
Import ListNotations.

Local Open Scope string_scope.
Local Open Scope Z_scope.

(** ** Python values *)

Module Py.

(** Exceptions a handler of the application can raise. *)
Inductive exn : Type := IndexError.

Inductive result (A : Type) : Type :=
| Ok (a : A)
| Raise (e : exn).

Arguments Ok {A} a.
Arguments Raise {A} e.

Definition bind {A B : Type} (r : result A) (k : A -> result B) : result B :=
  match r with
  | Ok a => k a
  | Raise e => Raise e
  end.

Definition len {A : Type} (l : list A) : Z := Z.of_nat (List.length l).

(** Truth value of a string and of a list: empty is false. *)
Definition truthy (s : string) : bool :=
  match s with
  | EmptyString => false
  | String _ _ => true
  end.

Definition nonempty {A : Type} (l : list A) : bool :=
  match l with
  | [] => false
  | _ :: _ => true
  end.

(** [a or b] on strings. *)
Definition str_or (a b : string) : string := if truthy a then a else b.

(** [l[i]]: a negative subscript counts from the end. *)
Definition getitem {A : Type} (l : list A) (i : Z) : result A :=
  let j := if i <? 0 then i + len l else i in
  if (j <? 0) || (len l <=? j) then Raise IndexError
  else match nth_error l (Z.to_nat j) with
       | Some a => Ok a
       | None => Raise IndexError
       end.

(** [q in s] on strings: [q] occurs in [s] as a contiguous substring. *)
Fixpoint str_in (q s : string) : bool :=
  match s with
  | EmptyString => prefix q EmptyString
  | String _ s' => prefix q s || str_in q s'
  end.

(** [x in l] on lists. *)
Fixpoint list_in {A : Type} (eqb : A -> A -> bool) (x : A) (l : list A) : bool :=
  match l with
  | [] => false
  | y :: l' => eqb y x || list_in eqb x l'
  end.

(** [sorted(l, key=key)] on string keys: the sort is stable, strings
    compare lexicographically by character code. *)
Section Sorted.
Context {A : Type} (key : A -> string).

Fixpoint insert (x : A) (l : list A) : list A :=
  match l with
  | [] => [x]
  | y :: l' =>
      if String.leb (key x) (key y) then x :: y :: l'
      else y :: insert x l'
  end.

Fixpoint sorted (l : list A) : list A :=
  match l with
  | [] => []
  | x :: l' => insert x (sorted l')
  end.
End Sorted.

End Py.

Import Py.

Notation "x <- r ;; k" := (bind r (fun x => k))
  (at level 61, r at next level, right associativity).

(** The string methods the application calls.  [lower_empty] is the one
    fact about them the properties below rely on. *)
Class PyStr : Type := {
  strip : string -> string;
  lower : string -> string;
  lower_empty : lower "" = "";
}.

(** ** The methods on ASCII text *)

Module AsciiStr.

(** [str.isspace] on the ASCII range: tab, line feed, vertical tab, form
    feed, carriage return, the four separators 28..31 and the space. *)
Definition is_space (c : ascii) : bool :=
  let n := nat_of_ascii c in
  ((9 <=? n) && (n <=? 13) || (28 <=? n) && (n <=? 32))%nat.

Fixpoint lstrip (s : string) : string :=
  match s with
  | EmptyString => EmptyString
  | String c s' => if is_space c then lstrip s' else s
  end.

Fixpoint rstrip (s : string) : string :=
  match s with
  | EmptyString => EmptyString
  | String c s' =>
      match rstrip s' with
      | EmptyString => if is_space c then EmptyString else String c EmptyString
      | r => String c r
      end
  end.

Definition strip (s : string) : string := rstrip (lstrip s).

Definition lower_char (c : ascii) : ascii :=
  let n := nat_of_ascii c in
  if ((65 <=? n) && (n <=? 90))%nat then ascii_of_nat (n + 32) else c.

Fixpoint lower (s : string) : string :=
  match s with
  | EmptyString => EmptyString
  | String c s' => String (lower_char c) (lower s')
  end.

End AsciiStr.

#[export] Instance ascii_str : PyStr := {|
  strip := AsciiStr.strip;
  lower := AsciiStr.lower;
  lower_empty := eq_refl;
|}.

(** ** Cards *)

Record Card : Type := mkCard {
  english : string;
  vietnamese : string;
  learned : bool;
}.

(** [card == other] *)
Definition card_eqb (a b : Card) : bool :=
  String.eqb (english a) (english b)
  && String.eqb (vietnamese a) (vietnamese b)
  && Bool.eqb (learned a) (learned b).

(** [card["learned"] = b] *)
Definition set_learned (b : bool) (c : Card) : Card :=
  {| english := english c; vietnamese := vietnamese c; learned := b |}.

(** ** The state *)

Record FlashcardState : Type := mkState {
  flashcards : list Card;
  current_index : Z;
  show_answer : bool;
  new_english : string;
  new_vietnamese : string;
  filter_learned : bool;
  search_query : string;
  sort_alpha : bool;
  view_mode : string;
  flipped_cards : list Z;
  flipped_words : list string;
  temp_word : string;
}.

(** The class attributes: the state a session starts from. *)
Definition initial_state : FlashcardState := {|
  flashcards := [];
  current_index := 0;
  show_answer := false;
  new_english := "";
  new_vietnamese := "";
  filter_learned := false;
  search_query := "";
  sort_alpha := false;
  view_mode := "single";
  flipped_cards := [];
  flipped_words := [];
  temp_word := "";
|}.

(** Assignment [self.x = v] to one state variable.  The framework also
    exposes each of them as an event handler of the same name
    ([set_new_english], [set_search_query], [set_sort_alpha], ... are bound
    to the inputs of the page; [set_temp_word] is written out in the
    source). *)
Definition set_flashcards (s : FlashcardState) (v : list Card) : FlashcardState :=
  mkState v (current_index s) (show_answer s) (new_english s)
    (new_vietnamese s) (filter_learned s) (search_query s) (sort_alpha s)
    (view_mode s) (flipped_cards s) (flipped_words s) (temp_word s).

Definition set_current_index (s : FlashcardState) (v : Z) : FlashcardState :=
  mkState (flashcards s) v (show_answer s) (new_english s)
    (new_vietnamese s) (filter_learned s) (search_query s) (sort_alpha s)
    (view_mode s) (flipped_cards s) (flipped_words s) (temp_word s).

Definition set_show_answer (s : FlashcardState) (v : bool) : FlashcardState :=
  mkState (flashcards s) (current_index s) v (new_english s)
    (new_vietnamese s) (filter_learned s) (search_query s) (sort_alpha s)
    (view_mode s) (flipped_cards s) (flipped_words s) (temp_word s).

Definition set_new_english (s : FlashcardState) (v : string) : FlashcardState :=
  mkState (flashcards s) (current_index s) (show_answer s) v
    (new_vietnamese s) (filter_learned s) (search_query s) (sort_alpha s)
    (view_mode s) (flipped_cards s) (flipped_words s) (temp_word s).

Definition set_new_vietnamese (s : FlashcardState) (v : string) : FlashcardState :=
  mkState (flashcards s) (current_index s) (show_answer s) (new_english s)
    v (filter_learned s) (search_query s) (sort_alpha s)
    (view_mode s) (flipped_cards s) (flipped_words s) (temp_word s).

Definition set_filter_learned (s : FlashcardState) (v : bool) : FlashcardState :=
  mkState (flashcards s) (current_index s) (show_answer s) (new_english s)
    (new_vietnamese s) v (search_query s) (sort_alpha s)
    (view_mode s) (flipped_cards s) (flipped_words s) (temp_word s).

Definition set_search_query (s : FlashcardState) (v : string) : FlashcardState :=
  mkState (flashcards s) (current_index s) (show_answer s) (new_english s)
    (new_vietnamese s) (filter_learned s) v (sort_alpha s)
    (view_mode s) (flipped_cards s) (flipped_words s) (temp_word s).

Definition set_sort_alpha (s : FlashcardState) (v : bool) : FlashcardState :=
  mkState (flashcards s) (current_index s) (show_answer s) (new_english s)
    (new_vietnamese s) (filter_learned s) (search_query s) v
    (view_mode s) (flipped_cards s) (flipped_words s) (temp_word s).

Definition set_view_mode (s : FlashcardState) (v : string) : FlashcardState :=
  mkState (flashcards s) (current_index s) (show_answer s) (new_english s)
    (new_vietnamese s) (filter_learned s) (search_query s) (sort_alpha s)
    v (flipped_cards s) (flipped_words s) (temp_word s).

Definition set_flipped_cards (s : FlashcardState) (v : list Z) : FlashcardState :=
  mkState (flashcards s) (current_index s) (show_answer s) (new_english s)
    (new_vietnamese s) (filter_learned s) (search_query s) (sort_alpha s)
    (view_mode s) v (flipped_words s) (temp_word s).

Definition set_flipped_words (s : FlashcardState) (v : list string) : FlashcardState :=
  mkState (flashcards s) (current_index s) (show_answer s) (new_english s)
    (new_vietnamese s) (filter_learned s) (search_query s) (sort_alpha s)
    (view_mode s) (flipped_cards s) v (temp_word s).

Definition set_temp_word (s : FlashcardState) (v : string) : FlashcardState :=
  mkState (flashcards s) (current_index s) (show_answer s) (new_english s)
    (new_vietnamese s) (filter_learned s) (search_query s) (sort_alpha s)
    (view_mode s) (flipped_cards s) (flipped_words s) v.

(** ** Computed variables and event handlers *)

Section Handlers.
Context {py : PyStr}.

(** [filtered_flashcards]: the deck, without the learned cards when the
    filter is on. *)
Definition filtered_flashcards (s : FlashcardState) : list Card :=
  if filter_learned s
  then filter (fun card => negb (learned card)) (flashcards s)
  else flashcards s.

(** The condition of the search comprehension of [visible_flashcards]. *)
Definition matches (query : string) (c : Card) : bool :=
  str_in query (lower (str_or (english c) ""))
  || str_in query (lower (str_or (vietnamese c) "")).

(** The key of the alphabetical sort. *)
Definition sort_key (c : Card) : string := lower (str_or (english c) "").

(** The query as [visible_flashcards] uses it. *)
Definition query_of (s : FlashcardState) : string :=
  lower (strip (str_or (search_query s) "")).

(** [visible_flashcards]: search, then sort, over [filtered_flashcards]. *)
Definition visible_flashcards (s : FlashcardState) : list Card :=
  let cards := filtered_flashcards s in
  let query := query_of s in
  let cards := if truthy query then filter (matches query) cards else cards in
  let cards := if sort_alpha s then sorted sort_key cards else cards in
  cards.

(** [current_card]; [None] is Python's [None]. *)
Definition current_card (s : FlashcardState) : result (option Card) :=
  let filtered := visible_flashcards s in
  if negb (nonempty filtered) then Ok None
  else if len filtered <=? current_index s then
    if nonempty filtered
    then c <- getitem filtered 0 ;; Ok (Some c)
    else Ok None
  else c <- getitem filtered (current_index s) ;; Ok (Some c).

Definition card_count (s : FlashcardState) : Z := len (visible_flashcards s).

Definition next_card (s : FlashcardState) : FlashcardState :=
  let filtered := visible_flashcards s in
  if nonempty filtered then
    let s := set_current_index s ((current_index s + 1) mod len filtered) in
    set_show_answer s false
  else s.

Definition previous_card (s : FlashcardState) : FlashcardState :=
  let filtered := visible_flashcards s in
  if nonempty filtered then
    let s := set_current_index s ((current_index s - 1) mod len filtered) in
    set_show_answer s false
  else s.

Definition toggle_answer (s : FlashcardState) : FlashcardState :=
  set_show_answer s (negb (show_answer s)).

(** The clamp that closes [add_flashcard] and [remove_current_card]. *)
Definition clamp_index (s : FlashcardState) (filtered : list Card) : FlashcardState :=
  if len filtered <=? current_index s
  then set_current_index s (Z.max 0 (len filtered - 1))
  else s.

Definition add_flashcard (s : FlashcardState) : FlashcardState :=
  if truthy (strip (new_english s)) && truthy (strip (new_vietnamese s)) then
    let new_card := {| english := strip (new_english s);
                       vietnamese := strip (new_vietnamese s);
                       learned := false |} in
    let s := set_flashcards s (flashcards s ++ [new_card]) in
    let s := set_new_english s "" in
    let s := set_new_vietnamese s "" in
    let filtered := visible_flashcards s in
    clamp_index s filtered
  else s.

(** [if current:] is taken by every card: a dictionary with three keys is
    true. *)
Definition remove_current_card (s : FlashcardState) : result FlashcardState :=
  current <- current_card s ;;
  match current with
  | Some current =>
      let s := set_flashcards s
                 (filter (fun card => negb (card_eqb card current)) (flashcards s)) in
      let filtered := visible_flashcards s in
      if nonempty filtered then Ok (clamp_index s filtered)
      else Ok (set_current_index s 0)
  | None => Ok s
  end.

(** The loop shared by the three [toggle_learned] handlers: the first
    card of the deck equal to [current] has its flag negated, then
    [break].  [current] may be that very dictionary of the deck; the loop
    is left right after the assignment, so no comparison sees it
    changed. *)
Fixpoint toggle_first (current : Card) (cards : list Card) : list Card :=
  match cards with
  | [] => []
  | card :: rest =>
      if card_eqb card current
      then set_learned (negb (learned card)) card :: rest
      else card :: toggle_first current rest
  end.

Definition toggle_learned (s : FlashcardState) : result FlashcardState :=
  current <- current_card s ;;
  match current with
  | Some current => Ok (set_flashcards s (toggle_first current (flashcards s)))
  | None => Ok s
  end.

Definition toggle_learned_by_index (s : FlashcardState) (card_index : Z)
  : result FlashcardState :=
  let filtered := visible_flashcards s in
  if (0 <=? card_index) && (card_index <? len filtered) then
    card <- getitem filtered card_index ;;
    Ok (set_flashcards s (toggle_first card (flashcards s)))
  else Ok s.

Definition toggle_learned_by_word (s : FlashcardState) (english_word : string)
  : FlashcardState :=
  let filtered := visible_flashcards s in
  match find (fun card => String.eqb (english card) english_word) filtered with
  | Some card => set_flashcards s (toggle_first card (flashcards s))
  | None => s
  end.

(** [toggle_flip]; [None] is the default argument. *)
Definition toggle_flip (s : FlashcardState) (card_index : option Z) : FlashcardState :=
  match card_index with
  | None => s
  | Some card_index =>
      if list_in Z.eqb card_index (flipped_cards s)
      then set_flipped_cards s
             (filter (fun idx => negb (idx =? card_index)) (flipped_cards s))
      else set_flipped_cards s (flipped_cards s ++ [card_index])
  end.

Definition toggle_flip_by_word (s : FlashcardState) (english_word : string)
  : FlashcardState :=
  if list_in String.eqb english_word (flipped_words s)
  then set_flipped_words s
         (filter (fun word => negb (String.eqb word english_word)) (flipped_words s))
  else set_flipped_words s (flipped_words s ++ [english_word]).

Definition set_temp_word_and_flip (s : FlashcardState) : FlashcardState :=
  if truthy (temp_word s) then
    let s := toggle_flip_by_word s (temp_word s) in
    set_temp_word s ""
  else s.

Definition set_temp_word_and_mark_learned (s : FlashcardState) : FlashcardState :=
  if truthy (temp_word s) then
    let s := toggle_learned_by_word s (temp_word s) in
    set_temp_word s ""
  else s.

Definition toggle_view_mode (s : FlashcardState) : FlashcardState :=
  let s := set_view_mode s (if String.eqb (view_mode s) "single" then "grid" else "single") in
  let s := set_show_answer s false in
  set_flipped_cards s [].

Definition toggle_filter (s : FlashcardState) : FlashcardState :=
  let s := set_filter_learned s (negb (filter_learned s)) in
  let s := set_current_index s 0 in
  set_show_answer s false.

(** [_grid_card]: whether the grid draws [card] flipped. *)
Definition is_flipped (s : FlashcardState) (card : Card) : bool :=
  list_in String.eqb (english card) (flipped_words s).

End Handlers.

(** ** Facts about the Python values *)

Lemma truthy_true (s : string) : truthy s = true <-> s <> "".
Proof.
  destruct s; simpl; split; intro H; try discriminate; try reflexivity.
  now elim H.
Qed.

Lemma truthy_false (s : string) : truthy s = false <-> s = "".
Proof.
  destruct s; simpl; split; intro H; try discriminate; reflexivity.
Qed.

Lemma str_or_empty (s : string) : str_or s "" = s.
Proof. now destruct s. Qed.

Lemma nonempty_true {A : Type} (l : list A) : nonempty l = true <-> l <> [].
Proof.
  destruct l; simpl; split; intro H; try discriminate; try reflexivity.
  now elim H.
Qed.

Lemma nonempty_len {A : Type} (l : list A) : nonempty l = true <-> 0 < len l.
Proof.
  unfold len; destruct l; simpl; split; intro H;
    try discriminate; try lia; reflexivity.
Qed.

Lemma len_nil {A : Type} : len (@nil A) = 0.
Proof. reflexivity. Qed.

Lemma len_nonneg {A : Type} (l : list A) : 0 <= len l.
Proof. unfold len; lia. Qed.

Lemma len_app {A : Type} (l k : list A) : len (l ++ k) = len l + len k.
Proof. unfold len; rewrite length_app; lia. Qed.

Lemma len_zero {A : Type} (l : list A) : len l = 0 <-> l = [].
Proof.
  unfold len; destruct l; simpl; split; intro H;
    try discriminate; try lia; reflexivity.
Qed.

(** A subscript within [0 .. len l) reads the element at that position. *)
Lemma getitem_in_range {A : Type} (l : list A) (i : Z) :
  0 <= i < len l ->
  exists a, getitem l i = Ok a /\ nth_error l (Z.to_nat i) = Some a.
Proof.
  intros Hi. unfold getitem.
  destruct (i <? 0) eqn:Hneg; [apply Z.ltb_lt in Hneg; lia|].
  rewrite Hneg.
  destruct (len l <=? i) eqn:Hge; [apply Z.leb_le in Hge; lia|].
  simpl.
  destruct (nth_error l (Z.to_nat i)) as [a|] eqn:Hnth.
  - now exists a.
  - apply nth_error_None in Hnth. unfold len in Hi. lia.
Qed.

Lemma getitem_In {A : Type} (l : list A) (i : Z) (a : A) :
  getitem l i = Ok a -> In a l.
Proof.
  unfold getitem.
  destruct ((_ <? 0) || _); [discriminate|].
  destruct (nth_error l _) as [b|] eqn:Hnth; [|discriminate].
  intros [= <-]. eapply nth_error_In; eassumption.
Qed.

Lemma card_eqb_spec (a b : Card) : reflect (a = b) (card_eqb a b).
Proof.
  destruct a as [e1 v1 l1], b as [e2 v2 l2]; unfold card_eqb; simpl.
  destruct (String.eqb_spec e1 e2) as [->|He]; simpl.
  - destruct (String.eqb_spec v1 v2) as [->|Hv]; simpl.
    + destruct (Bool.eqb_spec l1 l2) as [->|Hl]; constructor;
        [reflexivity | intros [=]; contradiction].
    + constructor; intros [=]; contradiction.
  - constructor; intros [=]; contradiction.
Qed.

Lemma card_eqb_refl (a : Card) : card_eqb a a = true.
Proof. now destruct (card_eqb_spec a a). Qed.

(** *** Substrings *)

(** [q] occurs in [s]: what [q in s] decides. *)
Definition occurs_in (q s : string) : Prop :=
  exists a b : string, s = (a ++ q ++ b)%string.

Lemma prefix_append (q s : string) :
  prefix q s = true <-> exists b, s = (q ++ b)%string.
Proof.
  revert s. induction q as [|c q IH]; intros s.
  - destruct s; simpl; split; trivial; intros _; eexists; reflexivity.
  - destruct s as [|d s]; simpl.
    + split; [discriminate | intros [b [=]]].
    + destruct (ascii_dec c d) as [->|Hcd].
      * rewrite IH. split; intros [b Hb]; exists b; [now subst | now inversion Hb].
      * split; [discriminate | intros [b [= Hc _]]; congruence].
Qed.

Lemma str_in_occurs (q s : string) : str_in q s = true <-> occurs_in q s.
Proof.
  unfold occurs_in. induction s as [|c s IH]; cbn [str_in].
  - rewrite prefix_append. split.
    + intros [b Hb]. exists "", b. exact Hb.
    + intros [a [b Hab]]. destruct a; [now exists b | discriminate].
  - rewrite orb_true_iff, prefix_append, IH. split.
    + intros [[b Hb] | [a [b Hab]]].
      * exists "", b. exact Hb.
      * exists (String c a), b. simpl. now rewrite Hab.
    + intros [[|d a] [b Hab]].
      * left. now exists b.
      * right. exists a, b. simpl in Hab. now inversion Hab.
Qed.

Lemma str_in_empty (s : string) : str_in "" s = true.
Proof. apply str_in_occurs. exists "", s. reflexivity. Qed.

(** *** The stable sort *)

Section SortedFacts.
Context {A : Type} (key : A -> string).

(** The order of the sort: keys compare with [<=]. *)
Definition key_le (a b : A) : Prop := String.leb (key a) (key b) = true.

Lemma insert_perm (x : A) (l : list A) : Permutation (insert key x l) (x :: l).
Proof.
  induction l as [|y l IH]; simpl.
  - apply Permutation_refl.
  - destruct (String.leb (key x) (key y)).
    + apply Permutation_refl.
    + eapply Permutation_trans; [apply perm_skip, IH | apply perm_swap].
Qed.

Lemma sorted_perm (l : list A) : Permutation (sorted key l) l.
Proof.
  induction l as [|x l IH]; simpl.
  - constructor.
  - eapply Permutation_trans; [apply insert_perm | now apply perm_skip].
Qed.

Lemma sorted_length (l : list A) : List.length (sorted key l) = List.length l.
Proof. apply Permutation_length, sorted_perm. Qed.

Lemma insert_hd (x y : A) (l : list A) :
  key_le y x -> HdRel key_le y l -> HdRel key_le y (insert key x l).
Proof.
  intros Hyx Hl. destruct l as [|z l]; simpl.
  - now constructor.
  - destruct (String.leb (key x) (key z)); constructor; trivial.
    now inversion Hl.
Qed.

Lemma insert_sorted (x : A) (l : list A) :
  Sorted key_le l -> Sorted key_le (insert key x l).
Proof.
  induction 1 as [|y l Hl IH Hhd]; simpl.
  - repeat constructor.
  - destruct (String.leb (key x) (key y)) eqn:Hxy.
    + constructor; [now constructor | now constructor].
    + constructor; [exact IH|].
      apply insert_hd; [|exact Hhd].
      destruct (String.leb_total (key x) (key y)) as [H|H]; [congruence | exact H].
Qed.

Lemma sorted_sorted (l : list A) : Sorted key_le (sorted key l).
Proof.
  induction l as [|x l IH]; simpl; [constructor | now apply insert_sorted].
Qed.

Lemma leb_refl (s : string) : String.leb s s = true.
Proof.
  unfold String.leb.
  pose proof (String.compare_antisym s s) as H.
  destruct (String.compare s s); try reflexivity; discriminate.
Qed.

(** Cards of one key keep the order they had: the sort is stable. *)
Lemma insert_stable (k : string) (x : A) (l : list A) :
  filter (fun a => String.eqb (key a) k) (insert key x l)
  = filter (fun a => String.eqb (key a) k) (x :: l).
Proof.
  induction l as [|y l IH]; [reflexivity|].
  simpl insert. destruct (String.leb (key x) (key y)) eqn:Hxy; [reflexivity|].
  simpl in *. rewrite IH.
  destruct (String.eqb_spec (key x) k) as [Hx|Hx]; [|reflexivity].
  destruct (String.eqb_spec (key y) k) as [Hy|Hy]; [|reflexivity].
  rewrite Hx, <- Hy, leb_refl in Hxy. discriminate.
Qed.

Lemma sorted_stable (k : string) (l : list A) :
  filter (fun a => String.eqb (key a) k) (sorted key l)
  = filter (fun a => String.eqb (key a) k) l.
Proof.
  induction l as [|x l IH]; [reflexivity|].
  simpl sorted. rewrite insert_stable. simpl. now rewrite IH.
Qed.
End SortedFacts.

(** ** The projection *)

(** [l] keeps some elements of [k], in the order of [k]. *)
Inductive subseq {A : Type} : list A -> list A -> Prop :=
| subseq_nil : subseq [] []
| subseq_skip (x : A) (l k : list A) : subseq l k -> subseq l (x :: k)
| subseq_keep (x : A) (l k : list A) : subseq l k -> subseq (x :: l) (x :: k).

Lemma subseq_filter {A : Type} (f : A -> bool) (l : list A) : subseq (filter f l) l.
Proof.
  induction l as [|x l IH]; simpl; [constructor|].
  destruct (f x); now constructor.
Qed.

Lemma subseq_refl {A : Type} (l : list A) : subseq l l.
Proof. induction l; now constructor. Qed.

Lemma subseq_trans {A : Type} (l k m : list A) :
  subseq l k -> subseq k m -> subseq l m.
Proof.
  intros Hlk Hkm. revert l Hlk.
  induction Hkm as [|x k m Hkm IH|x k m Hkm IH]; intros l Hlk.
  - exact Hlk.
  - constructor. now apply IH.
  - inversion Hlk; subst; constructor; now apply IH.
Qed.

Lemma filter_true {A : Type} (l : list A) : filter (fun _ => true) l = l.
Proof. induction l as [|x l IH]; simpl; congruence. Qed.

Lemma Sorted_impl {A : Type} (R R' : A -> A -> Prop) (l : list A) :
  (forall a b, R a b -> R' a b) -> Sorted R l -> Sorted R' l.
Proof.
  intros HR. induction 1 as [|x l Hl IH Hhd]; constructor; trivial.
  destruct Hhd; constructor; auto.
Qed.

Section Projection.
Context {py : PyStr}.

(** The two filters of the projection, as conditions on a card. *)
Definition keep_learned (s : FlashcardState) (c : Card) : bool :=
  if filter_learned s then negb (learned c) else true.

Definition keep_search (s : FlashcardState) (c : Card) : bool :=
  if truthy (query_of s) then matches (query_of s) c else true.

(** The cards the projection shows, before the sort. *)
Definition selection (s : FlashcardState) : list Card :=
  filter (keep_search s) (filter (keep_learned s) (flashcards s)).

Lemma filtered_flashcards_filter (s : FlashcardState) :
  filtered_flashcards s = filter (keep_learned s) (flashcards s).
Proof.
  unfold filtered_flashcards, keep_learned.
  destruct (filter_learned s); [reflexivity | now rewrite filter_true].
Qed.

Lemma visible_selection (s : FlashcardState) :
  visible_flashcards s
  = if sort_alpha s then sorted sort_key (selection s) else selection s.
Proof.
  unfold visible_flashcards, selection, keep_search.
  rewrite filtered_flashcards_filter.
  destruct (truthy (query_of s)); [reflexivity | now rewrite filter_true].
Qed.

Lemma visible_perm (s : FlashcardState) :
  Permutation (visible_flashcards s) (selection s).
Proof.
  rewrite visible_selection.
  destruct (sort_alpha s); [apply sorted_perm | apply Permutation_refl].
Qed.

Lemma visible_len (s : FlashcardState) :
  len (visible_flashcards s) = len (selection s).
Proof. unfold len. now rewrite (Permutation_length (visible_perm s)). Qed.

Lemma visible_In (s : FlashcardState) (c : Card) :
  In c (visible_flashcards s) <-> In c (selection s).
Proof.
  split; apply Permutation_in;
    [apply visible_perm | apply Permutation_sym, visible_perm].
Qed.

Lemma visible_In_deck (s : FlashcardState) (c : Card) :
  In c (visible_flashcards s) -> In c (flashcards s).
Proof.
  rewrite visible_In. unfold selection. rewrite !filter_In. tauto.
Qed.

End Projection.

(** ** Switching the filter and the view *)

(** C2, as the code has it: [toggle_filter] puts the cursor on 0 and
    hides the answer; [toggle_view_mode] hides the answer and leaves the
    cursor where it was. *)
Theorem toggle_resets (s : FlashcardState) :
  (current_index (toggle_filter s) = 0
   /\ show_answer (toggle_filter s) = false)
  /\ (show_answer (toggle_view_mode s) = false
      /\ current_index (toggle_view_mode s) = current_index s).
Proof. repeat split. Qed.

(** [toggle_filter] changes the filter flag, the cursor and the reveal
    flag, nothing else. *)
Lemma toggle_filter_frame (s : FlashcardState) :
  toggle_filter s
  = set_show_answer
      (set_current_index (set_filter_learned s (negb (filter_learned s))) 0)
      false.
Proof. reflexivity. Qed.

(** [toggle_view_mode] alternates between the two modes. *)
Lemma toggle_view_mode_single (s : FlashcardState) :
  view_mode s = "single" -> view_mode (toggle_view_mode s) = "grid".
Proof. intros H. unfold toggle_view_mode. simpl. now rewrite H. Qed.

Lemma toggle_view_mode_grid (s : FlashcardState) :
  view_mode s = "grid" -> view_mode (toggle_view_mode s) = "single".
Proof. intros H. unfold toggle_view_mode. simpl. now rewrite H. Qed.

(** The flip state across a change of view: the positions are cleared,
    the words are kept. *)
Lemma toggle_view_mode_flipped (s : FlashcardState) :
  flipped_cards (toggle_view_mode s) = []
  /\ flipped_words (toggle_view_mode s) = flipped_words s.
Proof. split; reflexivity. Qed.

Lemma toggle_view_mode_is_flipped (s : FlashcardState) (card : Card) :
  is_flipped (toggle_view_mode s) card = is_flipped s card.
Proof. reflexivity. Qed.

(** ** Adding a card *)

Section Adding.
Context {py : PyStr}.

(** The guard of [add_flashcard]. *)
Definition add_accepts (s : FlashcardState) : bool :=
  truthy (strip (new_english s)) && truthy (strip (new_vietnamese s)).

Lemma add_accepts_true (s : FlashcardState) :
  add_accepts s = true
  <-> strip (new_english s) <> "" /\ strip (new_vietnamese s) <> "".
Proof.
  unfold add_accepts. now rewrite andb_true_iff, !truthy_true.
Qed.

Lemma add_accepts_false (s : FlashcardState) :
  add_accepts s = false
  <-> strip (new_english s) = "" \/ strip (new_vietnamese s) = "".
Proof.
  unfold add_accepts. now rewrite andb_false_iff, !truthy_false.
Qed.

Lemma add_flashcard_rejected (s : FlashcardState) :
  add_accepts s = false -> add_flashcard s = s.
Proof.
  unfold add_accepts, add_flashcard. now intros ->.
Qed.

Lemma clamp_index_frame (s : FlashcardState) (filtered : list Card) :
  exists i, clamp_index s filtered = set_current_index s i.
Proof.
  unfold clamp_index. destruct (len filtered <=? current_index s).
  - eexists; reflexivity.
  - exists (current_index s). now destruct s.
Qed.

Lemma add_flashcard_accepted (s : FlashcardState) :
  add_accepts s = true ->
  exists i,
    add_flashcard s
    = set_current_index
        (set_new_vietnamese
           (set_new_english
              (set_flashcards s
                 (flashcards s
                  ++ [{| english := strip (new_english s);
                         vietnamese := strip (new_vietnamese s);
                         learned := false |}]))
              "")
           "")
        i.
Proof.
  unfold add_accepts, add_flashcard. intros ->.
  apply clamp_index_frame.
Qed.

(** C7: [add_flashcard] leaves the deck alone when a trimmed input is
    empty; otherwise it appends the one card built from the trimmed
    inputs, not learned, at the end of the deck; every card of the new
    deck that was not there before has both fields non-empty. *)
Theorem add_flashcard_deck (s : FlashcardState) :
  (strip (new_english s) = "" \/ strip (new_vietnamese s) = "" ->
   flashcards (add_flashcard s) = flashcards s)
  /\ (strip (new_english s) <> "" /\ strip (new_vietnamese s) <> "" ->
      flashcards (add_flashcard s)
      = (flashcards s ++ [{| english := strip (new_english s);
                             vietnamese := strip (new_vietnamese s);
                             learned := false |}])%list)
  /\ (forall c, In c (flashcards (add_flashcard s)) ->
      In c (flashcards s)
      \/ (english c <> "" /\ vietnamese c <> "" /\ learned c = false)).
Proof.
  split; [|split].
  - intros H. apply add_accepts_false in H.
    now rewrite add_flashcard_rejected.
  - intros H. apply add_accepts_true in H.
    destruct (add_flashcard_accepted s H) as [i ->]. reflexivity.
  - intros c Hc. destruct (add_accepts s) eqn:Hacc.
    + destruct (add_flashcard_accepted s Hacc) as [i Hi].
      rewrite Hi in Hc. simpl in Hc.
      apply in_app_or in Hc. destruct Hc as [Hc | [<- | []]]; [now left|].
      right. simpl. apply add_accepts_true in Hacc. tauto.
    + rewrite add_flashcard_rejected in Hc by assumption. now left.
Qed.

(** C9: an accepted [add_flashcard] empties the two input buffers; a
    rejected one returns the state it was given. *)
Theorem add_flashcard_buffers (s : FlashcardState) :
  (strip (new_english s) <> "" /\ strip (new_vietnamese s) <> "" ->
   new_english (add_flashcard s) = ""
   /\ new_vietnamese (add_flashcard s) = "")
  /\ (strip (new_english s) = "" \/ strip (new_vietnamese s) = "" ->
      add_flashcard s = s).
Proof.
  split.
  - intros H. apply add_accepts_true in H.
    destruct (add_flashcard_accepted s H) as [i ->]. split; reflexivity.
  - intros H. apply add_accepts_false in H.
    now apply add_flashcard_rejected.
Qed.

End Adding.

(** ** The current card *)

Section Cursor.
Context {py : PyStr}.

Lemma current_card_empty (s : FlashcardState) :
  visible_flashcards s = [] -> current_card s = Ok None.
Proof. unfold current_card. now intros ->. Qed.

Lemma current_card_within (s : FlashcardState) :
  0 <= current_index s < len (visible_flashcards s) ->
  exists c,
    nth_error (visible_flashcards s) (Z.to_nat (current_index s)) = Some c
    /\ current_card s = Ok (Some c).
Proof.
  intros Hi. unfold current_card.
  assert (Hne : nonempty (visible_flashcards s) = true)
    by (apply nonempty_len; lia).
  rewrite Hne. simpl.
  destruct (len (visible_flashcards s) <=? current_index s) eqn:Hge;
    [apply Z.leb_le in Hge; lia|].
  destruct (getitem_in_range _ _ Hi) as [c [Hget Hnth]].
  exists c. now rewrite Hget.
Qed.

Lemma current_card_beyond (s : FlashcardState) :
  visible_flashcards s <> [] ->
  len (visible_flashcards s) <= current_index s ->
  exists c,
    nth_error (visible_flashcards s) 0 = Some c
    /\ current_card s = Ok (Some c).
Proof.
  intros Hne Hge. unfold current_card.
  apply nonempty_true in Hne. rewrite Hne. simpl.
  apply Z.leb_le in Hge. rewrite Hge.
  apply nonempty_len in Hne.
  destruct (getitem_in_range (visible_flashcards s) 0) as [c [Hget Hnth]];
    [lia|].
  exists c. now rewrite Hget.
Qed.

(** C8: [current_card] is [None] on an empty projection; with the cursor
    within the projection it is the card at the cursor; with the cursor
    at or beyond the length of a non-empty projection it is the first
    card, and the subscript raises nothing. *)
Theorem current_card_cases (s : FlashcardState) :
  (visible_flashcards s = [] -> current_card s = Ok None)
  /\ (0 <= current_index s < len (visible_flashcards s) ->
      exists c,
        nth_error (visible_flashcards s) (Z.to_nat (current_index s)) = Some c
        /\ current_card s = Ok (Some c))
  /\ (visible_flashcards s <> [] ->
      len (visible_flashcards s) <= current_index s ->
      exists c,
        nth_error (visible_flashcards s) 0 = Some c
        /\ current_card s = Ok (Some c)).
Proof.
  split; [apply current_card_empty|].
  split; [apply current_card_within | apply current_card_beyond].
Qed.

(** Whatever [current_card] returns is a card of the projection. *)
Lemma current_card_visible (s : FlashcardState) (c : Card) :
  current_card s = Ok (Some c) -> In c (visible_flashcards s).
Proof.
  unfold current_card.
  destruct (nonempty (visible_flashcards s)); simpl; [|discriminate].
  destruct (len (visible_flashcards s) <=? current_index s).
  - destruct (getitem _ 0) as [a|e] eqn:Hget; simpl; [|discriminate].
    intros [= <-]. eapply getitem_In; eassumption.
  - destruct (getitem _ (current_index s)) as [a|e] eqn:Hget; simpl;
      [|discriminate].
    intros [= <-]. eapply getitem_In; eassumption.
Qed.

Lemma current_card_none (s : FlashcardState) :
  current_card s = Ok None -> visible_flashcards s = [].
Proof.
  unfold current_card.
  destruct (visible_flashcards s) as [|c l] eqn:Hv; [reflexivity|].
  cbn [nonempty negb]. destruct (len (c :: l) <=? current_index s).
  - destruct (getitem (c :: l) 0); discriminate.
  - destruct (getitem (c :: l) (current_index s)); discriminate.
Qed.

End Cursor.

(** ** Search and sort *)

Section Search.
Context {py : PyStr}.

Lemma matches_occurs (q : string) (c : Card) :
  matches q c = true
  <-> occurs_in q (lower (english c)) \/ occurs_in q (lower (vietnamese c)).
Proof.
  unfold matches. now rewrite orb_true_iff, !str_or_empty, !str_in_occurs.
Qed.

Lemma sort_key_english (c : Card) : sort_key c = lower (english c).
Proof. unfold sort_key. now rewrite str_or_empty. Qed.

Lemma query_of_strip (s : FlashcardState) :
  query_of s = lower (strip (search_query s)).
Proof. unfold query_of. now rewrite str_or_empty. Qed.

Lemma keep_search_occurs (s : FlashcardState) (c : Card) :
  keep_search s c = true
  <-> occurs_in (query_of s) (lower (english c))
      \/ occurs_in (query_of s) (lower (vietnamese c)).
Proof.
  unfold keep_search. destruct (truthy (query_of s)) eqn:Hq.
  - apply matches_occurs.
  - apply truthy_false in Hq. rewrite Hq. split; [|reflexivity].
    intros _. left. exists "", (lower (english c)). reflexivity.
Qed.

(** C5: under a query that is not empty once trimmed, the projection
    holds the cards of [filtered_flashcards] in which the trimmed,
    lowercased query occurs, in the lowercased english or in the
    lowercased vietnamese field; under a query that is empty once
    trimmed it holds every card of [filtered_flashcards]. *)
Theorem search_or_semantics (s : FlashcardState) (c : Card) :
  (strip (search_query s) <> "" ->
   (In c (visible_flashcards s)
    <-> In c (filtered_flashcards s)
        /\ (occurs_in (lower (strip (search_query s))) (lower (english c))
            \/ occurs_in (lower (strip (search_query s)))
                 (lower (vietnamese c)))))
  /\ (strip (search_query s) = "" ->
      (In c (visible_flashcards s) <-> In c (filtered_flashcards s))).
Proof.
  rewrite visible_In. unfold selection.
  rewrite <- filtered_flashcards_filter, filter_In, <- query_of_strip.
  split.
  - intros _. now rewrite keep_search_occurs.
  - intros Hq. unfold keep_search.
    rewrite query_of_strip, Hq, lower_empty. simpl. tauto.
Qed.

(** C6: without the sort the projection is the deck filtered on the
    learned flag, then on the query, in deck order; with the sort it is
    a permutation of that same list, ordered by the lowercased english
    field, cards of equal key in deck order. *)
Theorem projection_stages (s : FlashcardState) :
  (sort_alpha s = false ->
   visible_flashcards s
   = filter (keep_search s) (filter (keep_learned s) (flashcards s))
   /\ subseq (visible_flashcards s) (flashcards s))
  /\ (sort_alpha s = true ->
      visible_flashcards s
      = sorted sort_key (visible_flashcards (set_sort_alpha s false))
      /\ Permutation (visible_flashcards s)
           (visible_flashcards (set_sort_alpha s false))
      /\ Sorted (fun a b => String.leb (lower (english a)) (lower (english b)) = true)
           (visible_flashcards s)
      /\ forall k,
          filter (fun a => String.eqb (lower (english a)) k) (visible_flashcards s)
          = filter (fun a => String.eqb (lower (english a)) k)
              (visible_flashcards (set_sort_alpha s false))).
Proof.
  assert (Hoff : visible_flashcards (set_sort_alpha s false) = selection s)
    by (rewrite visible_selection; reflexivity).
  rewrite Hoff, visible_selection. split; intros ->.
  - split; [reflexivity|]. unfold selection.
    eapply subseq_trans; apply subseq_filter.
  - split; [reflexivity|]. split; [apply sorted_perm|]. split.
    + pose proof (sorted_sorted sort_key (selection s)) as H.
      apply (Sorted_impl (key_le sort_key)); [|exact H].
      intros a b. unfold key_le. now rewrite !sort_key_english.
    + intros k.
      assert (E : forall l,
                 filter (fun a => String.eqb (lower (english a)) k) l
                 = filter (fun a => String.eqb (sort_key a) k) l).
      { intros l. apply filter_ext. intros a. now rewrite sort_key_english. }
      rewrite !E. apply sorted_stable.
Qed.

End Search.

(** ** Marking and removing the current card *)

Lemma toggle_first_length (current : Card) (cards : list Card) :
  List.length (toggle_first current cards) = List.length cards.
Proof.
  induction cards as [|card rest IH]; simpl; [reflexivity|].
  destruct (card_eqb card current); simpl; congruence.
Qed.

Lemma toggle_first_english (current : Card) (cards : list Card) :
  map english (toggle_first current cards) = map english cards.
Proof.
  induction cards as [|card rest IH]; simpl; [reflexivity|].
  destruct (card_eqb card current); simpl; congruence.
Qed.

Lemma toggle_first_vietnamese (current : Card) (cards : list Card) :
  map vietnamese (toggle_first current cards) = map vietnamese cards.
Proof.
  induction cards as [|card rest IH]; simpl; [reflexivity|].
  destruct (card_eqb card current); simpl; congruence.
Qed.

(** The loop stops at the first card equal to [current]: the cards
    before it and all the cards after it are as they were. *)
Lemma toggle_first_split (current : Card) (cards : list Card) :
  In current cards ->
  exists before after,
    cards = (before ++ current :: after)%list
    /\ ~ In current before
    /\ toggle_first current cards
       = (before ++ set_learned (negb (learned current)) current :: after)%list.
Proof.
  induction cards as [|card rest IH]; simpl; [intros []|].
  intros Hin. destruct (card_eqb_spec card current) as [->|Hne].
  - exists [], rest. simpl. auto.
  - destruct Hin as [Heq|Hin]; [contradiction|].
    destruct (IH Hin) as (before & after & Hsplit & Hnot & Htog).
    exists (card :: before), after. simpl. rewrite Htog, <- Hsplit.
    repeat split; trivial. intros [Heq|Hb]; [contradiction | now apply Hnot].
Qed.

Lemma toggle_first_absent (current : Card) (cards : list Card) :
  ~ In current cards -> toggle_first current cards = cards.
Proof.
  induction cards as [|card rest IH]; simpl; [reflexivity|].
  intros Hnot. destruct (card_eqb_spec card current) as [->|Hne].
  - elim Hnot. now left.
  - rewrite IH; [reflexivity|]. intros H. apply Hnot. now right.
Qed.

(** The same, with the marked card written out: it has the word and the
    translation of [current] and the opposite flag. *)
Lemma toggle_first_record (current : Card) (cards : list Card) :
  In current cards ->
  exists before after,
    cards = (before ++ current :: after)%list
    /\ ~ In current before
    /\ toggle_first current cards
       = (before
            ++ {| english := english current;
                  vietnamese := vietnamese current;
                  learned := negb (learned current) |}
            :: after)%list.
Proof.
  intros Hin.
  destruct (toggle_first_split current cards Hin)
    as (before & after & Hsplit & Hnot & Htog).
  exists before, after.
  split; [exact Hsplit|]. split; [exact Hnot|].
  rewrite Htog. unfold set_learned. reflexivity.
Qed.

(** The deck without its first card equal to [current]. *)
Fixpoint remove_first (current : Card) (cards : list Card) : list Card :=
  match cards with
  | [] => []
  | card :: rest =>
      if card_eqb card current then rest
      else card :: remove_first current rest
  end.

(** How many cards of the deck are equal to [current]. *)
Definition occurrences (current : Card) (cards : list Card) : nat :=
  List.length (filter (fun card => card_eqb card current) cards).

Lemma filter_differs_id (current : Card) (cards : list Card) :
  filter (fun card => negb (card_eqb card current)) cards = cards
  <-> occurrences current cards = 0%nat.
Proof.
  unfold occurrences. induction cards as [|card rest IH]; simpl; [tauto|].
  destruct (card_eqb card current); simpl.
  - split; [|discriminate]. intros H.
    pose proof (filter_length_le (fun card => negb (card_eqb card current)) rest) as Hle.
    rewrite H in Hle. simpl in Hle. lia.
  - rewrite <- IH. split; [now intros [= ->] | now intros ->].
Qed.

(** The comprehension of [remove_current_card] drops every card equal to
    [current]: it removes the first of them alone exactly when the deck
    holds [current] at most once. *)
Lemma filter_remove_first (current : Card) (cards : list Card) :
  filter (fun card => negb (card_eqb card current)) cards
  = remove_first current cards
  <-> (occurrences current cards <= 1)%nat.
Proof.
  induction cards as [|card rest IH]; [unfold occurrences; simpl; split; auto|].
  unfold occurrences in *. simpl.
  destruct (card_eqb card current) eqn:Heq; simpl.
  - fold (occurrences current rest). rewrite filter_differs_id. lia.
  - rewrite <- IH. split; [now intros [= ->] | now intros ->].
Qed.

Section Deck.
Context {py : PyStr}.

(** C10: with a current card, [toggle_learned] changes the deck alone;
    the deck keeps its length and the english and vietnamese fields of
    every position; the first card equal to the current card becomes the
    card of the same word and translation whose learned flag is the
    negation of the current card's, and the cards before and after it,
    later equal cards included, are as they were.  On an empty
    projection the state is returned as it was. *)
Theorem toggle_learned_deck (s : FlashcardState) :
  (forall current, current_card s = Ok (Some current) ->
   exists s',
     toggle_learned s = Ok s'
     /\ s' = set_flashcards s (flashcards s')
     /\ List.length (flashcards s') = List.length (flashcards s)
     /\ map english (flashcards s') = map english (flashcards s)
     /\ map vietnamese (flashcards s') = map vietnamese (flashcards s)
     /\ exists before after,
         flashcards s = (before ++ current :: after)%list
         /\ ~ In current before
         /\ flashcards s'
            = (before
                 ++ {| english := english current;
                       vietnamese := vietnamese current;
                       learned := negb (learned current) |}
                 :: after)%list)
  /\ (visible_flashcards s = [] -> toggle_learned s = Ok s).
Proof.
  split.
  - intros current Hcur. unfold toggle_learned. rewrite Hcur. simpl.
    eexists. split; [reflexivity|]. simpl.
    split; [reflexivity|].
    split; [apply toggle_first_length|].
    split; [apply toggle_first_english|].
    split; [apply toggle_first_vietnamese|].
    apply toggle_first_record.
    apply visible_In_deck, current_card_visible, Hcur.
  - intros Hv. unfold toggle_learned.
    now rewrite (current_card_empty s Hv).
Qed.

(** What [remove_current_card] does to the deck: every card equal to the
    current card goes. *)
Lemma remove_current_card_deck (s : FlashcardState) (current : Card) :
  current_card s = Ok (Some current) ->
  exists s',
    remove_current_card s = Ok s'
    /\ flashcards s'
       = filter (fun card => negb (card_eqb card current)) (flashcards s).
Proof.
  intros Hcur. unfold remove_current_card. rewrite Hcur. simpl.
  match goal with |- context [nonempty ?l] => destruct (nonempty l) end.
  - eexists. split; [reflexivity|].
    match goal with |- context [clamp_index ?s ?l] =>
      destruct (clamp_index_frame s l) as [i ->] end.
    reflexivity.
  - eexists. split; reflexivity.
Qed.

(** On a deck that holds the current card once, [remove_current_card]
    removes that card and no other. *)
Lemma remove_current_card_once (s : FlashcardState) (current : Card) :
  current_card s = Ok (Some current) ->
  (occurrences current (flashcards s) <= 1)%nat ->
  exists s',
    remove_current_card s = Ok s'
    /\ flashcards s' = remove_first current (flashcards s).
Proof.
  intros Hcur Hocc.
  destruct (remove_current_card_deck s current Hcur) as (s' & Hrm & Hdeck).
  exists s'. split; [exact Hrm|].
  rewrite Hdeck. now apply filter_remove_first.
Qed.

Lemma remove_current_card_none (s : FlashcardState) :
  visible_flashcards s = [] -> remove_current_card s = Ok s.
Proof.
  intros Hv. unfold remove_current_card.
  now rewrite (current_card_empty s Hv).
Qed.

End Deck.

(** ** The cursor stays within the projection *)

(** The events of a session that add, remove and filter.  Typing into the
    two inputs of the form comes with them: without it [add_flashcard]
    has nothing to add. *)
Inductive event : Type :=
| AddFlashcard
| RemoveCurrentCard
| ToggleFilter
| SetNewEnglish (v : string)
| SetNewVietnamese (v : string).

Section Session.
Context {py : PyStr}.

Definition handle (s : FlashcardState) (e : event) : result FlashcardState :=
  match e with
  | AddFlashcard => Ok (add_flashcard s)
  | RemoveCurrentCard => remove_current_card s
  | ToggleFilter => Ok (toggle_filter s)
  | SetNewEnglish v => Ok (set_new_english s v)
  | SetNewVietnamese v => Ok (set_new_vietnamese s v)
  end.

(** The events run in order; an exception ends the run. *)
Fixpoint run (s : FlashcardState) (events : list event) : result FlashcardState :=
  match events with
  | [] => Ok s
  | e :: events' => s' <- handle s e ;; run s' events'
  end.

(** The cursor is a position of the projection, or 0 when there is
    none. *)
Definition cursor_ok (s : FlashcardState) : Prop :=
  (visible_flashcards s <> [] ->
   0 <= current_index s < len (visible_flashcards s))
  /\ (visible_flashcards s = [] -> current_index s = 0).

Lemma cursor_ok_nonneg (s : FlashcardState) : cursor_ok s -> 0 <= current_index s.
Proof.
  intros [Hne He]. destruct (visible_flashcards s) as [|c l] eqn:Hv.
  - rewrite He; [lia | reflexivity].
  - apply Hne. discriminate.
Qed.

Lemma cursor_ok_zero (s : FlashcardState) : current_index s = 0 -> cursor_ok s.
Proof.
  intros H0. split; [|trivial]. intros Hne. rewrite H0.
  apply nonempty_true, nonempty_len in Hne. lia.
Qed.

Lemma visible_set_current_index (s : FlashcardState) (i : Z) :
  visible_flashcards (set_current_index s i) = visible_flashcards s.
Proof. reflexivity. Qed.

Lemma cursor_ok_clamp (s : FlashcardState) :
  0 <= current_index s -> cursor_ok (clamp_index s (visible_flashcards s)).
Proof.
  intros Hpos. unfold clamp_index.
  destruct (len (visible_flashcards s) <=? current_index s) eqn:Hge.
  - apply Z.leb_le in Hge. unfold cursor_ok.
    rewrite visible_set_current_index. simpl current_index. split.
    + intros Hne. apply nonempty_true, nonempty_len in Hne. lia.
    + intros He. apply len_zero in He. lia.
  - apply Z.leb_gt in Hge. split.
    + intros _. lia.
    + intros He. apply len_zero in He. lia.
Qed.

(** The projection of a deck with one more card at its end is no
    shorter. *)
Lemma visible_len_append (s : FlashcardState) (c : Card) :
  len (visible_flashcards s)
  <= len (visible_flashcards (set_flashcards s (flashcards s ++ [c]))).
Proof.
  rewrite !visible_len. unfold selection. simpl flashcards.
  change (keep_learned (set_flashcards s (flashcards s ++ [c])))
    with (keep_learned s).
  change (keep_search (set_flashcards s (flashcards s ++ [c])))
    with (keep_search s).
  rewrite !filter_app, len_app.
  pose proof (len_nonneg (filter (keep_search s) (filter (keep_learned s) [c]))).
  lia.
Qed.

Lemma cursor_ok_add (s : FlashcardState) : cursor_ok s -> cursor_ok (add_flashcard s).
Proof.
  intros Hok. unfold add_flashcard.
  destruct (truthy (strip (new_english s)) && truthy (strip (new_vietnamese s)));
    [|exact Hok].
  cbv zeta. apply cursor_ok_clamp. simpl. now apply cursor_ok_nonneg.
Qed.

Lemma cursor_ok_toggle_filter (s : FlashcardState) : cursor_ok (toggle_filter s).
Proof. apply cursor_ok_zero. reflexivity. Qed.

Lemma cursor_ok_current_card (s : FlashcardState) :
  cursor_ok s -> exists current, current_card s = Ok current.
Proof.
  intros [Hne He]. destruct (visible_flashcards s) as [|c l] eqn:Hv.
  - exists None. now apply current_card_empty.
  - destruct (current_card_within s) as [c' [_ Hc]].
    + rewrite Hv. apply Hne. discriminate.
    + now exists (Some c').
Qed.

Lemma cursor_ok_remove (s : FlashcardState) :
  cursor_ok s ->
  exists s', remove_current_card s = Ok s' /\ cursor_ok s'.
Proof.
  intros Hok. destruct (cursor_ok_current_card s Hok) as [current Hcur].
  unfold remove_current_card. rewrite Hcur. simpl.
  destruct current as [current|]; [|now exists s].
  match goal with |- context [nonempty ?l] => destruct (nonempty l) eqn:Hne end.
  - eexists. split; [reflexivity|].
    apply cursor_ok_clamp. simpl. now apply cursor_ok_nonneg.
  - eexists. split; [reflexivity|]. apply cursor_ok_zero. reflexivity.
Qed.

Lemma cursor_ok_handle (s : FlashcardState) (e : event) :
  cursor_ok s -> exists s', handle s e = Ok s' /\ cursor_ok s'.
Proof.
  intros Hok. destruct e; simpl.
  - eexists. split; [reflexivity | now apply cursor_ok_add].
  - now apply cursor_ok_remove.
  - eexists. split; [reflexivity | apply cursor_ok_toggle_filter].
  - eexists. split; [reflexivity | exact Hok].
  - eexists. split; [reflexivity | exact Hok].
Qed.

Lemma cursor_ok_run (events : list event) (s : FlashcardState) :
  cursor_ok s -> exists s', run s events = Ok s' /\ cursor_ok s'.
Proof.
  revert s. induction events as [|e events IH]; intros s Hok; simpl.
  - now exists s.
  - destruct (cursor_ok_handle s e Hok) as (s1 & -> & Hok1). simpl.
    now apply IH.
Qed.

(** C4: from a state whose cursor is 0, every run of [add_flashcard],
    [remove_current_card] and [toggle_filter] events (and of typing into
    the form) finishes without an exception, in a state whose cursor is a
    position of the projection when the projection has cards, and 0 when
    it has none. *)
Theorem cursor_bounds (s0 : FlashcardState) (events : list event) :
  current_index s0 = 0 ->
  exists s,
    run s0 events = Ok s
    /\ (visible_flashcards s <> [] ->
        0 <= current_index s < len (visible_flashcards s))
    /\ (visible_flashcards s = [] -> current_index s = 0).
Proof.
  intros H0. apply cursor_ok_run, cursor_ok_zero, H0.
Qed.

End Session.

(** ** Sessions on ASCII text *)

(** A card as [add_flashcard] builds it. *)
Definition card (e v : string) : Card :=
  {| english := e; vietnamese := v; learned := false |}.

(** Typing a word and its translation into the form, then adding. *)
Definition typed_add (s : FlashcardState) (e v : string) : FlashcardState :=
  add_flashcard (set_new_vietnamese (set_new_english s e) v).

(** The session that added "cat" and "dog", and moved to the second
    card. *)
Definition cat_dog : FlashcardState :=
  next_card (typed_add (typed_add initial_state " cat" "con meo") "Dog " "con cho").

(** The session that added the same card twice. *)
Definition cat_cat : FlashcardState :=
  typed_add (typed_add initial_state "cat" "con meo") "cat" "con meo".

(** The session that flipped "cat" in the grid. *)
Definition cat_flipped : FlashcardState :=
  set_temp_word_and_flip
    (set_temp_word (toggle_view_mode (typed_add initial_state "cat" "con meo")) "cat").

Example cat_dog_state :
  flashcards cat_dog = [card "cat" "con meo"; card "Dog" "con cho"]
  /\ current_index cat_dog = 1
  /\ current_card cat_dog = Ok (Some (card "Dog" "con cho")).
Proof. repeat split. Qed.

Example cat_cat_state :
  flashcards cat_cat = [card "cat" "con meo"; card "cat" "con meo"]
  /\ current_index cat_cat = 0
  /\ current_card cat_cat = Ok (Some (card "cat" "con meo")).
Proof. repeat split. Qed.

Example cat_flipped_state :
  view_mode cat_flipped = "grid"
  /\ flipped_words cat_flipped = ["cat"]
  /\ is_flipped cat_flipped (card "cat" "con meo") = true.
Proof. repeat split. Qed.

(** C1: on the deck that holds the current card twice,
    [remove_current_card] removes both copies; removing the first of them
    alone leaves the other. *)
Theorem remove_current_card_duplicates :
  (exists s',
     remove_current_card cat_cat = Ok s' /\ flashcards s' = [])
  /\ remove_first (card "cat" "con meo") (flashcards cat_cat)
     = [card "cat" "con meo"].
Proof.
  split; [eexists; split|]; reflexivity.
Qed.

(** C2: the cursor of [cat_dog] is 1 and [toggle_view_mode] keeps it. *)
Lemma toggle_view_mode_keeps_cursor :
  current_index cat_dog = 1
  /\ current_index (toggle_view_mode cat_dog) = 1
  /\ current_index (toggle_view_mode cat_dog) <> 0.
Proof. repeat split. discriminate. Qed.

(** C3: [toggle_view_mode] leaves the flipped words in place, and the
    grid still draws "cat" flipped after the view was left and entered
    again. *)
Theorem toggle_view_mode_keeps_flipped_words :
  flipped_words (toggle_view_mode cat_flipped) = ["cat"]
  /\ is_flipped (toggle_view_mode cat_flipped) (card "cat" "con meo") = true
  /\ is_flipped (toggle_view_mode (toggle_view_mode cat_flipped))
       (card "cat" "con meo") = true.
Proof. repeat split. Qed.

(** The form filled with a word and its translation, not yet added. *)
Definition form_filled : FlashcardState :=
  set_new_vietnamese (set_new_english initial_state " cat ") "con meo".

(** The form with a blank word. *)
Definition form_blank : FlashcardState :=
  set_new_vietnamese (set_new_english cat_dog "   ") "con meo".

(** "zebra" then "Apple", with the alphabetical sort on. *)
Definition zebra_apple : FlashcardState :=
  set_sort_alpha
    (typed_add (typed_add initial_state "zebra" "ngua van") "Apple" "tao") true.

Example zebra_apple_state :
  flashcards zebra_apple = [card "zebra" "ngua van"; card "Apple" "tao"]
  /\ visible_flashcards zebra_apple = [card "Apple" "tao"; card "zebra" "ngua van"].
Proof. split; reflexivity. Qed.

(** [cursor_bounds] on a session that adds a card, filters and removes. *)
Lemma cursor_bounds_witness :
  current_index initial_state = 0
  /\ exists s,
      run initial_state
        [SetNewEnglish "cat"; SetNewVietnamese "con meo"; AddFlashcard;
         ToggleFilter; RemoveCurrentCard; AddFlashcard]
      = Ok s
      /\ (visible_flashcards s <> [] ->
          0 <= current_index s < len (visible_flashcards s))
      /\ (visible_flashcards s = [] -> current_index s = 0).
Proof.
  split; [reflexivity|].
  apply (cursor_bounds initial_state). reflexivity.
Defined.

(** [search_or_semantics] under the query " DO " and under a blank one. *)
Lemma search_or_semantics_witness :
  (strip (search_query (set_search_query cat_dog " DO ")) <> ""
   /\ In (card "Dog" "con cho")
        (visible_flashcards (set_search_query cat_dog " DO ")))
  /\ (strip (search_query (set_search_query cat_dog "  ")) = ""
      /\ In (card "cat" "con meo")
           (visible_flashcards (set_search_query cat_dog "  "))).
Proof.
  split; split.
  - discriminate.
  - destruct (search_or_semantics (set_search_query cat_dog " DO ")
                (card "Dog" "con cho")) as [H _].
    apply H; [discriminate|]. split.
    + right. left. reflexivity.
    + left. exists "", "g". reflexivity.
  - reflexivity.
  - destruct (search_or_semantics (set_search_query cat_dog "  ")
                (card "cat" "con meo")) as [_ H].
    apply H; [reflexivity|]. left. reflexivity.
Defined.

(** [projection_stages] with the sort on and with the sort off. *)
Lemma projection_stages_witness :
  (sort_alpha zebra_apple = true
   /\ Permutation (visible_flashcards zebra_apple)
        (visible_flashcards (set_sort_alpha zebra_apple false)))
  /\ (sort_alpha cat_dog = false
      /\ subseq (visible_flashcards cat_dog) (flashcards cat_dog)).
Proof.
  split; split; try reflexivity.
  - destruct (projection_stages zebra_apple) as [_ H].
    apply H. reflexivity.
  - destruct (projection_stages cat_dog) as [H _].
    apply H. reflexivity.
Defined.

(** [add_flashcard_deck] on the filled form and on the blank one. *)
Lemma add_flashcard_deck_witness :
  ((strip (new_english form_filled) <> ""
    /\ strip (new_vietnamese form_filled) <> "")
   /\ flashcards (add_flashcard form_filled) = [card "cat" "con meo"])
  /\ ((strip (new_english form_blank) = ""
       \/ strip (new_vietnamese form_blank) = "")
      /\ flashcards (add_flashcard form_blank) = flashcards form_blank).
Proof.
  split; split.
  - split; discriminate.
  - destruct (add_flashcard_deck form_filled) as (_ & H & _).
    apply H. split; discriminate.
  - left. reflexivity.
  - destruct (add_flashcard_deck form_blank) as (H & _).
    apply H. left. reflexivity.
Defined.

(** [add_flashcard_buffers] on the filled form and on the blank one. *)
Lemma add_flashcard_buffers_witness :
  ((strip (new_english form_filled) <> ""
    /\ strip (new_vietnamese form_filled) <> "")
   /\ new_english (add_flashcard form_filled) = ""
   /\ new_vietnamese (add_flashcard form_filled) = "")
  /\ ((strip (new_english form_blank) = ""
       \/ strip (new_vietnamese form_blank) = "")
      /\ add_flashcard form_blank = form_blank).
Proof.
  split; split.
  - split; discriminate.
  - destruct (add_flashcard_buffers form_filled) as [H _].
    apply H. split; discriminate.
  - left. reflexivity.
  - destruct (add_flashcard_buffers form_blank) as [_ H].
    apply H. left. reflexivity.
Defined.

(** [current_card_cases] with the cursor on the second of two cards and
    with the cursor beyond them. *)
Lemma current_card_cases_witness :
  (0 <= current_index cat_dog < len (visible_flashcards cat_dog)
   /\ exists c,
       nth_error (visible_flashcards cat_dog)
         (Z.to_nat (current_index cat_dog)) = Some c
       /\ current_card cat_dog = Ok (Some c))
  /\ (len (visible_flashcards (set_current_index cat_dog 5))
      <= current_index (set_current_index cat_dog 5)
      /\ exists c,
          nth_error (visible_flashcards (set_current_index cat_dog 5)) 0 = Some c
          /\ current_card (set_current_index cat_dog 5) = Ok (Some c))
  /\ current_card initial_state = Ok None.
Proof.
  split; [|split]; [split|split|].
  - change (0 <= 1 < 2). lia.
  - destruct (current_card_cases cat_dog) as (_ & H & _).
    apply H. change (0 <= 1 < 2). lia.
  - change (2 <= 5). lia.
  - destruct (current_card_cases (set_current_index cat_dog 5)) as (_ & _ & H).
    apply H; [discriminate | change (2 <= 5); lia].
  - destruct (current_card_cases initial_state) as (H & _).
    apply H. reflexivity.
Defined.

(** [toggle_learned_deck] on the deck that holds the current card
    twice. *)
Lemma toggle_learned_deck_witness :
  current_card cat_cat = Ok (Some (card "cat" "con meo"))
  /\ exists s',
      toggle_learned cat_cat = Ok s'
      /\ s' = set_flashcards cat_cat (flashcards s')
      /\ List.length (flashcards s') = List.length (flashcards cat_cat)
      /\ map english (flashcards s') = map english (flashcards cat_cat)
      /\ map vietnamese (flashcards s') = map vietnamese (flashcards cat_cat)
      /\ exists before after,
          flashcards cat_cat = (before ++ card "cat" "con meo" :: after)%list
          /\ ~ In (card "cat" "con meo") before
          /\ flashcards s'
             = (before
                  ++ {| english := "cat"; vietnamese := "con meo";
                        learned := true |}
                  :: after)%list.
Proof.
  split; [reflexivity|].
  destruct (toggle_learned_deck cat_cat) as [H _].
  apply H. reflexivity.
Defined.

Example toggle_learned_cat_cat :
  exists s',
    toggle_learned cat_cat = Ok s'
    /\ flashcards s'
       = [{| english := "cat"; vietnamese := "con meo"; learned := true |};
          {| english := "cat"; vietnamese := "con meo"; learned := false |}].
Proof. eexists. split; reflexivity. Qed.

(** ** The view mode and the cursor *)

Section ViewMode.
Context {py : PyStr}.

(** Changing the view changes neither the projection nor the cursor: a
    cursor that was within the projection still is. *)
Lemma toggle_view_mode_visible (s : FlashcardState) :
  visible_flashcards (toggle_view_mode s) = visible_flashcards s.
Proof. reflexivity. Qed.

Lemma cursor_ok_toggle_view_mode (s : FlashcardState) :
  cursor_ok s -> cursor_ok (toggle_view_mode s).
Proof. intros H. exact H. Qed.

(** Moving through the cards keeps the cursor within the projection. *)
Lemma cursor_ok_next_card (s : FlashcardState) :
  cursor_ok s -> cursor_ok (next_card s).
Proof.
  intros Hok. unfold next_card.
  destruct (nonempty (visible_flashcards s)) eqn:Hne; [|exact Hok].
  apply nonempty_len in Hne. split; simpl current_index.
  - intros _. apply Z.mod_pos_bound. exact Hne.
  - intros He. change (visible_flashcards s = []) in He.
    apply len_zero in He. lia.
Qed.

End ViewMode.

(** A cursor below 0 counts from the end of the projection, and raises
    beyond its start. *)
Example current_card_negative :
  current_card (set_current_index cat_dog (-1)) = Ok (Some (card "Dog" "con cho"))
  /\ current_card (set_current_index cat_dog (-3)) = Raise IndexError.
Proof. split; reflexivity. Qed.

(** * Further properties of the handlers *)

(** ** Moving through the cards *)

Section Navigation.
Context {py : PyStr}.

Lemma next_card_step (s : FlashcardState) :
  visible_flashcards s <> [] ->
  next_card s
  = set_show_answer
      (set_current_index s
         ((current_index s + 1) mod len (visible_flashcards s)))
      false.
Proof.
  intros Hne. unfold next_card.
  apply nonempty_true in Hne. now rewrite Hne.
Qed.

Lemma previous_card_step (s : FlashcardState) :
  visible_flashcards s <> [] ->
  previous_card s
  = set_show_answer
      (set_current_index s
         ((current_index s - 1) mod len (visible_flashcards s)))
      false.
Proof.
  intros Hne. unfold previous_card.
  apply nonempty_true in Hne. now rewrite Hne.
Qed.

Lemma next_card_visible (s : FlashcardState) :
  visible_flashcards (next_card s) = visible_flashcards s.
Proof.
  unfold next_card. now destruct (nonempty (visible_flashcards s)).
Qed.

Lemma previous_card_visible (s : FlashcardState) :
  visible_flashcards (previous_card s) = visible_flashcards s.
Proof.
  unfold previous_card. now destruct (nonempty (visible_flashcards s)).
Qed.

Lemma len_pos {A : Type} (l : list A) : l <> [] -> 0 < len l.
Proof. intros H. now apply nonempty_len, nonempty_true. Qed.

(** X1: Wherever the cursor was, also below 0 or beyond the projection,
    [next_card] and [previous_card] put it on a position of a non-empty
    projection and hide the answer; the projection is the same. *)
Theorem navigation_bounds (s : FlashcardState) :
  visible_flashcards s <> [] ->
  (0 <= current_index (next_card s) < len (visible_flashcards (next_card s))
   /\ show_answer (next_card s) = false
   /\ visible_flashcards (next_card s) = visible_flashcards s)
  /\ (0 <= current_index (previous_card s)
        < len (visible_flashcards (previous_card s))
      /\ show_answer (previous_card s) = false
      /\ visible_flashcards (previous_card s) = visible_flashcards s).
Proof.
  intros Hne. pose proof (len_pos _ Hne) as Hpos.
  rewrite next_card_visible, previous_card_visible.
  rewrite (next_card_step s Hne), (previous_card_step s Hne).
  simpl current_index. simpl show_answer.
  repeat split; try apply Z.mod_pos_bound; assumption.
Qed.

(** On an empty projection the two handlers change nothing. *)
Theorem navigation_empty (s : FlashcardState) :
  visible_flashcards s = [] -> next_card s = s /\ previous_card s = s.
Proof.
  intros He. unfold next_card, previous_card. now rewrite He.
Qed.

(** X2: From a cursor within the projection, a step forward and a step back
    (or back, then forward) return to the same card, answer hidden. *)
Theorem navigation_round_trip (s : FlashcardState) :
  0 <= current_index s < len (visible_flashcards s) ->
  previous_card (next_card s) = set_show_answer s false
  /\ next_card (previous_card s) = set_show_answer s false.
Proof.
  intros Hi.
  assert (Hne : visible_flashcards s <> [])
    by (intros He; rewrite He in Hi; cbn in Hi; lia).
  split.
  - rewrite previous_card_step by (now rewrite next_card_visible).
    rewrite next_card_visible, (next_card_step s Hne). simpl current_index.
    rewrite Zminus_mod_idemp_l.
    replace (current_index s + 1 - 1) with (current_index s) by lia.
    rewrite (Z.mod_small (current_index s)) by exact Hi. reflexivity.
  - rewrite next_card_step by (now rewrite previous_card_visible).
    rewrite previous_card_visible, (previous_card_step s Hne).
    simpl current_index. rewrite Zplus_mod_idemp_l.
    replace (current_index s - 1 + 1) with (current_index s) by lia.
    rewrite (Z.mod_small (current_index s)) by exact Hi. reflexivity.
Qed.

(** X3: The ends of the projection are joined: forward from the last card is
    the first, back from the first is the last. *)
Theorem navigation_wraps (s : FlashcardState) :
  visible_flashcards s <> [] ->
  (current_index s = len (visible_flashcards s) - 1 ->
   current_index (next_card s) = 0)
  /\ (current_index s = 0 ->
      current_index (previous_card s) = len (visible_flashcards s) - 1).
Proof.
  intros Hne. pose proof (len_pos _ Hne) as Hpos.
  rewrite (next_card_step s Hne), (previous_card_step s Hne).
  simpl current_index. split; intros ->.
  - replace (len (visible_flashcards s) - 1 + 1)
      with (len (visible_flashcards s)) by lia.
    now apply Z.mod_same, Z.neq_sym, Z.lt_neq.
  - replace (0 - 1)
      with (len (visible_flashcards s) - 1 + (-1) * len (visible_flashcards s))
      by lia.
    rewrite Z.mod_add by lia. apply Z.mod_small. lia.
Qed.

Lemma next_card_iter (k : nat) (s : FlashcardState) :
  0 <= current_index s < len (visible_flashcards s) ->
  visible_flashcards (Nat.iter k next_card s) = visible_flashcards s
  /\ current_index (Nat.iter k next_card s)
     = (current_index s + Z.of_nat k) mod len (visible_flashcards s).
Proof.
  intros Hi.
  assert (Hne : visible_flashcards s <> [])
    by (intros He; rewrite He in Hi; cbn in Hi; lia).
  induction k as [|k [IHv IHi]].
  - simpl. split; [reflexivity|]. rewrite Z.add_0_r.
    symmetry. now apply Z.mod_small.
  - change (Nat.iter (S k) next_card s)
      with (next_card (Nat.iter k next_card s)).
    rewrite next_card_visible. split; [exact IHv|].
    rewrite next_card_step by (now rewrite IHv).
    simpl current_index. rewrite IHv, IHi, Zplus_mod_idemp_l.
    f_equal. lia.
Qed.

(** X4: As many steps forward as the projection has cards lead back to the
    card one started from. *)
Theorem next_card_cycle (s : FlashcardState) :
  0 <= current_index s < len (visible_flashcards s) ->
  current_index
    (Nat.iter (List.length (visible_flashcards s)) next_card s)
  = current_index s.
Proof.
  intros Hi.
  destruct (next_card_iter (List.length (visible_flashcards s)) s Hi) as [_ ->].
  fold (len (visible_flashcards s)).
  replace (current_index s + len (visible_flashcards s))
    with (current_index s + 1 * len (visible_flashcards s)) by lia.
  rewrite Z.mod_add by lia. now apply Z.mod_small.
Qed.

End Navigation.

(** ** Flipping cards in the grid *)

Lemma list_in_In {A : Type} (eqb : A -> A -> bool) (x : A) (l : list A) :
  (forall a b, eqb a b = true <-> a = b) ->
  list_in eqb x l = true <-> In x l.
Proof.
  intros Heqb. induction l as [|y l IH]; simpl.
  - split; [discriminate | intros []].
  - now rewrite orb_true_iff, Heqb, IH.
Qed.

Lemma list_in_app {A : Type} (eqb : A -> A -> bool) (x : A) (l k : list A) :
  list_in eqb x (l ++ k) = list_in eqb x l || list_in eqb x k.
Proof.
  induction l as [|y l IH]; simpl; [reflexivity|].
  now rewrite IH, orb_assoc.
Qed.

Lemma list_in_filter {A : Type} (eqb : A -> A -> bool) (f : A -> bool)
  (x : A) (l : list A) :
  (forall a b, eqb a b = true <-> a = b) ->
  list_in eqb x (filter f l) = f x && list_in eqb x l.
Proof.
  intros Heqb. induction l as [|y l IH]; simpl.
  - now rewrite andb_false_r.
  - destruct (f y) eqn:Hfy; simpl; rewrite IH.
    + destruct (eqb y x) eqn:Hyx; simpl; [|reflexivity].
      apply Heqb in Hyx. subst y. now rewrite Hfy.
    + destruct (eqb y x) eqn:Hyx; simpl; [|reflexivity].
      apply Heqb in Hyx. subst y. now rewrite Hfy.
Qed.

(** The list of a toggle: [x] is taken out of [l] when it is there, put
    at its end when it is not. *)
Definition toggled {A : Type} (eqb : A -> A -> bool) (x : A) (l : list A) : list A :=
  if list_in eqb x l
  then filter (fun y => negb (eqb y x)) l
  else l ++ [x].

Lemma toggled_in {A : Type} (eqb : A -> A -> bool) (x y : A) (l : list A) :
  (forall a b, eqb a b = true <-> a = b) ->
  list_in eqb y (toggled eqb x l)
  = if eqb y x then negb (list_in eqb x l) else list_in eqb y l.
Proof.
  intros Heqb. unfold toggled.
  destruct (list_in eqb x l) eqn:Hx.
  - rewrite list_in_filter by exact Heqb.
    destruct (eqb y x) eqn:Hyx; simpl; reflexivity.
  - rewrite list_in_app. simpl. rewrite orb_false_r.
    assert (Hsym : eqb x y = eqb y x).
    { destruct (eqb x y) eqn:Hxy, (eqb y x) eqn:Hyx; trivial.
      - apply Heqb in Hxy. subst. rewrite <- Hyx. symmetry. now apply Heqb.
      - apply Heqb in Hyx. subst. rewrite <- Hxy. now apply Heqb. }
    rewrite Hsym. destruct (eqb y x) eqn:Hyx; simpl.
    + apply Heqb in Hyx. subst y. rewrite Hx. reflexivity.
    + now rewrite orb_false_r.
Qed.

Lemma toggled_twice {A : Type} (eqb : A -> A -> bool) (x : A) (l : list A) :
  (forall a b, eqb a b = true <-> a = b) ->
  list_in eqb x l = false ->
  toggled eqb x (toggled eqb x l) = l.
Proof.
  intros Heqb Hx. unfold toggled at 2. rewrite Hx.
  unfold toggled. rewrite list_in_app. simpl.
  replace (eqb x x) with true by (symmetry; now apply Heqb).
  rewrite orb_true_r, filter_app. simpl.
  replace (eqb x x) with true by (symmetry; now apply Heqb).
  simpl. rewrite app_nil_r.
  clear -Heqb Hx. induction l as [|y l IH]; simpl in *; [reflexivity|].
  apply orb_false_iff in Hx. destruct Hx as [Hyx Hl].
  rewrite Hyx. simpl. now rewrite IH.
Qed.

Lemma toggled_NoDup {A : Type} (eqb : A -> A -> bool) (x : A) (l : list A) :
  (forall a b, eqb a b = true <-> a = b) ->
  NoDup l -> NoDup (toggled eqb x l).
Proof.
  intros Heqb Hl. unfold toggled. destruct (list_in eqb x l) eqn:Hx.
  - now apply NoDup_filter.
  - apply NoDup_app; trivial.
    + repeat constructor. intros [].
    + intros y Hy [Heq|[]]. subst y.
      apply (list_in_In eqb x l Heqb) in Hy. congruence.
Qed.

Lemma string_eqb_iff (a b : string) : String.eqb a b = true <-> a = b.
Proof. apply String.eqb_eq. Qed.

Lemma toggle_flip_by_word_toggled (s : FlashcardState) (english_word : string) :
  toggle_flip_by_word s english_word
  = set_flipped_words s (toggled String.eqb english_word (flipped_words s)).
Proof.
  unfold toggle_flip_by_word, toggled.
  now destruct (list_in String.eqb english_word (flipped_words s)).
Qed.

Lemma toggle_flip_toggled (s : FlashcardState) (card_index : Z) :
  toggle_flip s (Some card_index)
  = set_flipped_cards s (toggled Z.eqb card_index (flipped_cards s)).
Proof.
  unfold toggle_flip, toggled.
  now destruct (list_in Z.eqb card_index (flipped_cards s)).
Qed.

(** X5: [toggle_flip_by_word] turns over the cards that carry the word, all
    of them, and no other card; it changes no other state variable. *)
Theorem toggle_flip_by_word_flips
  (s : FlashcardState) (english_word : string) (c : Card) :
  is_flipped (toggle_flip_by_word s english_word) c
  = (if String.eqb (english c) english_word
     then negb (is_flipped s c)
     else is_flipped s c)
  /\ toggle_flip_by_word s english_word
     = set_flipped_words s (flipped_words (toggle_flip_by_word s english_word)).
Proof.
  rewrite toggle_flip_by_word_toggled. split; [|reflexivity].
  unfold is_flipped. simpl flipped_words.
  rewrite toggled_in by exact string_eqb_iff.
  destruct (String.eqb_spec (english c) english_word) as [->|]; reflexivity.
Qed.

(** X6: Flipping a word that is not flipped, twice, gives back the state;
    in any case the second flip undoes what the first showed. *)
Theorem toggle_flip_by_word_twice
  (s : FlashcardState) (english_word : string) :
  (forall c,
     is_flipped (toggle_flip_by_word (toggle_flip_by_word s english_word)
                   english_word) c
     = is_flipped s c)
  /\ (list_in String.eqb english_word (flipped_words s) = false ->
      toggle_flip_by_word (toggle_flip_by_word s english_word) english_word
      = s).
Proof.
  rewrite !toggle_flip_by_word_toggled. simpl flipped_words. split.
  - intros c. unfold is_flipped. simpl flipped_words.
    rewrite !toggled_in by exact string_eqb_iff.
    rewrite String.eqb_refl.
    destruct (String.eqb_spec (english c) english_word) as [->|];
      [apply negb_involutive | reflexivity].
  - intros Hx. rewrite toggled_twice by (exact string_eqb_iff || exact Hx).
    now destruct s.
Qed.

(** X7: [toggle_flip] without a position does nothing; with a position it
    turns that position over and leaves the others. *)
Theorem toggle_flip_flips (s : FlashcardState) (card_index i : Z) :
  toggle_flip s None = s
  /\ list_in Z.eqb i (flipped_cards (toggle_flip s (Some card_index)))
     = (if i =? card_index
        then negb (list_in Z.eqb card_index (flipped_cards s))
        else list_in Z.eqb i (flipped_cards s)).
Proof.
  split; [reflexivity|].
  rewrite toggle_flip_toggled. simpl flipped_cards.
  apply toggled_in. exact Z.eqb_eq.
Qed.

(** Neither list of flipped cards ever holds an entry twice. *)
Theorem flipped_NoDup
  (s : FlashcardState) (card_index : option Z) (english_word : string) :
  NoDup (flipped_cards s) -> NoDup (flipped_words s) ->
  NoDup (flipped_cards (toggle_flip s card_index))
  /\ NoDup (flipped_words (toggle_flip_by_word s english_word)).
Proof.
  intros Hc Hw. split.
  - destruct card_index as [card_index|]; [|exact Hc].
    rewrite toggle_flip_toggled. simpl. now apply toggled_NoDup, Hc; apply Z.eqb_eq.
  - rewrite toggle_flip_by_word_toggled. simpl.
    now apply toggled_NoDup, Hw; apply string_eqb_iff.
Qed.

(** X8: Staging a word and flipping it: a non-empty word is flipped and the
    staging variable is left empty; the empty word flips nothing. *)
Theorem set_temp_word_and_flip_staged (s : FlashcardState) (word : string) :
  temp_word (set_temp_word_and_flip (set_temp_word s word)) = ""
  /\ (word <> "" ->
      flipped_words (set_temp_word_and_flip (set_temp_word s word))
      = flipped_words (toggle_flip_by_word s word))
  /\ (word = "" ->
      set_temp_word_and_flip (set_temp_word s word) = set_temp_word s "").
Proof.
  unfold set_temp_word_and_flip. simpl temp_word.
  destruct word as [|a word]; simpl truthy; cbv iota.
  - repeat split; congruence.
  - split; [reflexivity|]. split; [|discriminate]. intros _.
    rewrite !toggle_flip_by_word_toggled. reflexivity.
Qed.

(** ** Marking cards learned from the grid *)

Section Marking.
Context {py : PyStr}.

Lemma selection_set_flashcards (s : FlashcardState) (deck : list Card) :
  selection (set_flashcards s deck)
  = filter (keep_search s) (filter (keep_learned s) deck).
Proof. reflexivity. Qed.

Lemma keep_search_set_learned (s : FlashcardState) (b : bool) (c : Card) :
  keep_search s (set_learned b c) = keep_search s c.
Proof. reflexivity. Qed.

Lemma selection_keeps (s : FlashcardState) (c : Card) :
  In c (selection s) <->
  In c (flashcards s) /\ keep_learned s c = true /\ keep_search s c = true.
Proof. unfold selection. rewrite !filter_In. tauto. Qed.

(** X9: [toggle_learned_by_index] never raises: a position outside the
    projection, negative ones included, leaves the state as it is; for a
    position of the projection, with [c] the card shown there, the first
    card of the deck equal to [c] becomes the card of the same word and
    translation with the negated flag, the cards before and after it are
    as they were, and [toggle_learned] with the cursor on that position
    gives the same deck. *)
Theorem toggle_learned_by_index_guarded (s : FlashcardState) (card_index : Z) :
  (card_index < 0 \/ len (visible_flashcards s) <= card_index ->
   toggle_learned_by_index s card_index = Ok s)
  /\ (0 <= card_index < len (visible_flashcards s) ->
      exists c before after,
        nth_error (visible_flashcards s) (Z.to_nat card_index) = Some c
        /\ flashcards s = (before ++ c :: after)%list
        /\ ~ In c before
        /\ toggle_learned_by_index s card_index
           = Ok (set_flashcards s
                   (before
                      ++ {| english := english c;
                            vietnamese := vietnamese c;
                            learned := negb (learned c) |}
                      :: after))
        /\ toggle_learned (set_current_index s card_index)
           = Ok (set_flashcards (set_current_index s card_index)
                   (before
                      ++ {| english := english c;
                            vietnamese := vietnamese c;
                            learned := negb (learned c) |}
                      :: after))).
Proof.
  unfold toggle_learned_by_index. split.
  - intros [Hlt|Hge].
    + apply Z.leb_gt in Hlt. now rewrite Hlt.
    + apply Z.ltb_ge in Hge. now rewrite Hge, andb_false_r.
  - intros Hi.
    destruct (getitem_in_range _ _ Hi) as [c [Hget Hnth]].
    destruct (toggle_first_record c (flashcards s))
      as (before & after & Hsplit & Hnot & Htog).
    { apply visible_In_deck. eapply nth_error_In. exact Hnth. }
    exists c, before, after.
    split; [exact Hnth|]. split; [exact Hsplit|]. split; [exact Hnot|].
    rewrite <- Htog. split.
    + replace (0 <=? card_index) with true by (symmetry; apply Z.leb_le; lia).
      replace (card_index <? len (visible_flashcards s)) with true
        by (symmetry; apply Z.ltb_lt; lia).
      simpl. now rewrite Hget.
    + destruct (current_card_within (set_current_index s card_index))
        as [c' [Hnth' Hcur]]; [exact Hi|].
      simpl current_index in Hnth'.
      rewrite visible_set_current_index in Hnth'.
      assert (c' = c) by congruence. subst c'.
      unfold toggle_learned. now rewrite Hcur.
Qed.

Lemma find_first {A : Type} (f : A -> bool) (l : list A) (a : A) :
  find f l = Some a ->
  exists pre post,
    l = (pre ++ a :: post)%list
    /\ f a = true
    /\ forall x, In x pre -> f x = false.
Proof.
  induction l as [|y l IH]; simpl; [discriminate|].
  destruct (f y) eqn:Hfy.
  - intros [= ->]. exists [], l. repeat split; trivial. intros x [].
  - intros Hfind. destruct (IH Hfind) as (pre & post & -> & Hfa & Hpre).
    exists (y :: pre), post. repeat split; trivial.
    intros x [<-|Hx]; [exact Hfy | now apply Hpre].
Qed.

Lemma find_none_iff {A : Type} (f : A -> bool) (l : list A) :
  find f l = None <-> forall x, In x l -> f x = false.
Proof.
  split; [apply find_none|].
  induction l as [|y l IH]; simpl; [reflexivity|]. intros H.
  rewrite (H y) by now left. apply IH. intros x Hx. apply H. now right.
Qed.

(** X10: [toggle_learned_by_word] leaves the state alone when no card of the
    projection carries the word; otherwise, with [c] the first card of
    the projection that carries it (no card shown before [c] does), the
    first card of the deck equal to [c] becomes the card of the same
    word and translation with the negated flag, and the cards before and
    after it are as they were. *)
Theorem toggle_learned_by_word_deck (s : FlashcardState) (english_word : string) :
  ((forall c, In c (visible_flashcards s) -> english c <> english_word) ->
   toggle_learned_by_word s english_word = s)
  /\ ((exists c, In c (visible_flashcards s) /\ english c = english_word) ->
      exists c shown_before shown_after before after,
        visible_flashcards s = (shown_before ++ c :: shown_after)%list
        /\ (forall x, In x shown_before -> english x <> english_word)
        /\ english c = english_word
        /\ flashcards s = (before ++ c :: after)%list
        /\ ~ In c before
        /\ toggle_learned_by_word s english_word
           = set_flashcards s
               (before
                  ++ {| english := english c;
                        vietnamese := vietnamese c;
                        learned := negb (learned c) |}
                  :: after)).
Proof.
  unfold toggle_learned_by_word. split.
  - intros Hnone.
    replace (find _ (visible_flashcards s)) with (@None Card); [reflexivity|].
    symmetry. apply find_none_iff. intros c Hc.
    apply String.eqb_neq. now apply Hnone.
  - intros [c0 [Hc0 Hw0]].
    destruct (find (fun card => String.eqb (english card) english_word)
                (visible_flashcards s)) as [c|] eqn:Hfind.
    + destruct (find_first _ _ _ Hfind)
        as (shown_before & shown_after & Hshown & Hw & Hfirst).
      apply String.eqb_eq in Hw.
      destruct (toggle_first_record c (flashcards s))
        as (before & after & Hsplit & Hnot & Htog).
      { apply visible_In_deck. rewrite Hshown.
        apply in_or_app. right. now left. }
      exists c, shown_before, shown_after, before, after.
      rewrite Htog. repeat split; trivial.
      intros x Hx. apply String.eqb_neq. now apply Hfirst.
    + pose proof (find_none _ _ Hfind c0 Hc0) as H. simpl in H.
      apply String.eqb_neq in H. contradiction.
Qed.

(** X11: The three handlers that mark a card keep the deck's length and the
    english and vietnamese field of every position, and the cursor. *)
Theorem marking_frame (s : FlashcardState) (card_index : Z) (english_word : string) :
  (forall s', toggle_learned s = Ok s' \/ toggle_learned_by_index s card_index = Ok s'
              \/ toggle_learned_by_word s english_word = s' ->
     map english (flashcards s') = map english (flashcards s)
     /\ map vietnamese (flashcards s') = map vietnamese (flashcards s)
     /\ List.length (flashcards s') = List.length (flashcards s)
     /\ current_index s' = current_index s).
Proof.
  assert (Hset : forall c s',
             s' = set_flashcards s (toggle_first c (flashcards s)) ->
             map english (flashcards s') = map english (flashcards s)
             /\ map vietnamese (flashcards s') = map vietnamese (flashcards s)
             /\ List.length (flashcards s') = List.length (flashcards s)
             /\ current_index s' = current_index s).
  { intros c s' ->. simpl.
    now rewrite toggle_first_english, toggle_first_vietnamese,
      toggle_first_length. }
  intros s' [H | [H | H]].
  - unfold toggle_learned in H.
    destruct (current_card s) as [[c|]|e]; simpl in H; try discriminate.
    + injection H as <-. now apply (Hset c).
    + injection H as <-. auto.
  - unfold toggle_learned_by_index in H.
    destruct ((0 <=? card_index) && (card_index <? len (visible_flashcards s))).
    + destruct (getitem _ card_index) as [c|e]; simpl in H; try discriminate.
      injection H as <-. now apply (Hset c).
    + injection H as <-. auto.
  - unfold toggle_learned_by_word in H.
    destruct (find _ (visible_flashcards s)) as [c|].
    + now apply (Hset c).
    + subst s'. auto.
Qed.

(** How [toggle_first] on a card of the projection changes the number of
    cards shown: one less under the learned filter, none otherwise. *)
Lemma selection_toggle_first (s : FlashcardState) (c : Card) :
  In c (selection s) ->
  len (selection (set_flashcards s (toggle_first c (flashcards s))))
  = len (selection s) - (if filter_learned s then 1 else 0).
Proof.
  intros Hsel. apply selection_keeps in Hsel.
  destruct Hsel as (Hdeck & Hkl & Hks).
  destruct (toggle_first_split c (flashcards s) Hdeck)
    as (before & after & Hsplit & _ & Htog).
  rewrite selection_set_flashcards, Htog. unfold selection. rewrite Hsplit.
  rewrite !filter_app. simpl filter.
  rewrite Hkl. simpl filter. rewrite Hks.
  unfold keep_learned at 2. unfold keep_learned in Hkl.
  destruct (filter_learned s).
  - simpl learned. rewrite Hkl. simpl. rewrite !len_app.
    unfold len. simpl List.length. lia.
  - simpl. rewrite keep_search_set_learned, Hks. rewrite !len_app.
    unfold len. simpl List.length. lia.
Qed.

(** X12: Under the learned filter, [toggle_learned] takes the current card out
    of the projection, which loses exactly one card; without the filter
    the projection keeps its number of cards.  The cursor is not
    moved. *)
Theorem toggle_learned_card_count (s : FlashcardState) (current : Card) :
  current_card s = Ok (Some current) ->
  exists s',
    toggle_learned s = Ok s'
    /\ card_count s' = card_count s - (if filter_learned s then 1 else 0)
    /\ current_index s' = current_index s.
Proof.
  intros Hcur. unfold toggle_learned. rewrite Hcur. simpl.
  eexists. split; [reflexivity|]. split; [|reflexivity].
  unfold card_count. rewrite !visible_len.
  apply selection_toggle_first.
  apply visible_In, current_card_visible, Hcur.
Qed.

End Marking.

(** ** Removing and adding, seen from the projection *)

Lemma filter_comm {A : Type} (f g : A -> bool) (l : list A) :
  filter f (filter g l) = filter g (filter f l).
Proof.
  induction l as [|x l IH]; simpl; [reflexivity|].
  destruct (f x) eqn:Hf, (g x) eqn:Hg; simpl; rewrite ?Hf, ?Hg, IH; reflexivity.
Qed.

Lemma filter_length_lt {A : Type} (f : A -> bool) (x : A) (l : list A) :
  In x l -> f x = false -> (List.length (filter f l) < List.length l)%nat.
Proof.
  induction l as [|y l IH]; simpl; [intros []|].
  intros [->|Hin] Hfx.
  - rewrite Hfx. pose proof (filter_length_le f l). lia.
  - specialize (IH Hin Hfx). destruct (f y); simpl; lia.
Qed.

Section Removing.
Context {py : PyStr}.

Lemma remove_current_card_state (s : FlashcardState) (current : Card) :
  current_card s = Ok (Some current) ->
  exists i,
    remove_current_card s
    = Ok (set_current_index
            (set_flashcards s
               (filter (fun card => negb (card_eqb card current)) (flashcards s)))
            i).
Proof.
  intros Hcur. unfold remove_current_card. rewrite Hcur. simpl.
  match goal with |- context [nonempty ?l] => destruct (nonempty l) end.
  - match goal with |- context [clamp_index ?s ?l] =>
      destruct (clamp_index_frame s l) as [i ->] end.
    now exists i.
  - now exists 0.
Qed.

(** X15: After [remove_current_card] the card that was current is in neither
    the deck nor the projection; every other card of the deck is kept,
    in the order it had. *)
Theorem remove_current_card_gone (s : FlashcardState) (current : Card) :
  current_card s = Ok (Some current) ->
  exists s',
    remove_current_card s = Ok s'
    /\ ~ In current (flashcards s')
    /\ ~ In current (visible_flashcards s')
    /\ (forall c, c <> current -> In c (flashcards s') <-> In c (flashcards s))
    /\ subseq (flashcards s') (flashcards s).
Proof.
  intros Hcur. destruct (remove_current_card_state s current Hcur) as [i ->].
  eexists. split; [reflexivity|]. simpl flashcards.
  assert (Hnot : ~ In current
                   (filter (fun card => negb (card_eqb card current))
                      (flashcards s))).
  { rewrite filter_In. intros [_ H]. now rewrite card_eqb_refl in H. }
  split; [exact Hnot|]. split; [|split].
  - intros Hv. apply visible_In_deck in Hv. now apply Hnot.
  - intros c Hne. rewrite filter_In. split; [tauto|].
    intros Hin. split; [exact Hin|].
    destruct (card_eqb_spec c current); [contradiction | reflexivity].
  - apply subseq_filter.
Qed.

(** X16: [remove_current_card] shortens the projection. *)
Theorem remove_current_card_shrinks (s : FlashcardState) (current : Card) :
  current_card s = Ok (Some current) ->
  exists s',
    remove_current_card s = Ok s' /\ card_count s' < card_count s.
Proof.
  intros Hcur. destruct (remove_current_card_state s current Hcur) as [i ->].
  eexists. split; [reflexivity|].
  unfold card_count. rewrite !visible_len.
  change (selection (set_current_index
                       (set_flashcards s
                          (filter (fun card => negb (card_eqb card current))
                             (flashcards s))) i))
    with (filter (keep_search s)
            (filter (keep_learned s)
               (filter (fun card => negb (card_eqb card current))
                  (flashcards s)))).
  rewrite (filter_comm (keep_learned s)), (filter_comm (keep_search s)).
  fold (selection s). unfold len.
  apply inj_lt, (filter_length_lt _ current).
  - apply visible_In, current_card_visible, Hcur.
  - now rewrite card_eqb_refl.
Qed.

(** The card of an accepted [add_flashcard]. *)
Definition new_card (s : FlashcardState) : Card :=
  {| english := strip (new_english s);
     vietnamese := strip (new_vietnamese s);
     learned := false |}.

Lemma add_flashcard_state (s : FlashcardState) :
  add_accepts s = true ->
  exists i,
    add_flashcard s
    = set_current_index
        (set_new_vietnamese
           (set_new_english
              (set_flashcards s (flashcards s ++ [new_card s])) "") "")
        i.
Proof. apply add_flashcard_accepted. Qed.

Lemma selection_add (s : FlashcardState) (i : Z) :
  selection
    (set_current_index
       (set_new_vietnamese
          (set_new_english
             (set_flashcards s (flashcards s ++ [new_card s])) "") "")
       i)
  = (selection s ++ (if keep_search s (new_card s) then [new_card s] else []))%list.
Proof.
  change (selection _)
    with (filter (keep_search s)
            (filter (keep_learned s) (flashcards s ++ [new_card s]))) at 1.
  rewrite !filter_app. fold (selection s). f_equal.
  simpl filter. unfold keep_learned at 1. simpl learned.
  destruct (filter_learned s); reflexivity.
Qed.

(** X17: An accepted [add_flashcard] shows the new card exactly when it
    passes the search, whatever the learned filter: without the sort the
    projection gets it at its end, with the sort it gets it in its
    place. *)
Theorem add_flashcard_visible (s : FlashcardState) :
  strip (new_english s) <> "" -> strip (new_vietnamese s) <> "" ->
  Permutation (visible_flashcards (add_flashcard s))
    (visible_flashcards s
     ++ (if keep_search s (new_card s) then [new_card s] else []))
  /\ (sort_alpha s = false ->
      visible_flashcards (add_flashcard s)
      = (visible_flashcards s
         ++ (if keep_search s (new_card s) then [new_card s] else []))%list).
Proof.
  intros He Hv.
  destruct (add_flashcard_state s) as [i ->];
    [apply add_accepts_true; now split|].
  split.
  - eapply Permutation_trans; [apply visible_perm|].
    rewrite selection_add. apply Permutation_app_tail, Permutation_sym, visible_perm.
  - intros Hsort. rewrite !visible_selection. simpl sort_alpha.
    rewrite Hsort. apply selection_add.
Qed.

(** X18: [add_flashcard] does not move a cursor that was in its place, and the
    projection grows by the new card or not at all. *)
Theorem add_flashcard_cursor (s : FlashcardState) :
  cursor_ok s ->
  current_index (add_flashcard s) = current_index s
  /\ card_count s <= card_count (add_flashcard s) <= card_count s + 1.
Proof.
  intros Hok. destruct (add_accepts s) eqn:Hacc.
  - unfold add_flashcard. unfold add_accepts in Hacc. rewrite Hacc.
    cbv zeta. fold (new_card s).
    set (s1 := set_new_vietnamese _ "").
    assert (Hlen : len (visible_flashcards s1)
                   = len (visible_flashcards s)
                     + len (if keep_search s (new_card s)
                            then [new_card s] else [])).
    { rewrite !visible_len. unfold s1.
      rewrite <- len_app, <- (selection_add s 0). reflexivity. }
    assert (Hcount : forall i, card_count (set_current_index s1 i)
                               = len (visible_flashcards s1))
      by reflexivity.
    assert (Hone : 0 <= len (if keep_search s (new_card s)
                             then [new_card s] else []) <= 1)
      by (destruct (keep_search s (new_card s)); cbn; lia).
    destruct Hok as [Hne He].
    unfold clamp_index. change (current_index s1) with (current_index s).
    destruct (len (visible_flashcards s1) <=? current_index s) eqn:Hge.
    + apply Z.leb_le in Hge. rewrite Hcount. simpl current_index.
      unfold card_count.
      destruct (visible_flashcards s) as [|c l] eqn:Hvis.
      * rewrite He by reflexivity. rewrite He in Hge by reflexivity.
        rewrite len_nil in *. change (len (@nil Card)) with 0. lia.
      * assert (0 <= current_index s < len (c :: l))
          by (apply Hne; discriminate).
        lia.
    + unfold card_count. fold (card_count s1).
      change (card_count s1) with (len (visible_flashcards s1)).
      change (current_index s1) with (current_index s). lia.
  - rewrite add_flashcard_rejected by exact Hacc. lia.
Qed.

End Removing.

(** ** When the current card is there, and when it raises *)

Lemma getitem_raises {A : Type} (l : list A) (i : Z) :
  getitem l i = Raise IndexError <-> i < - len l \/ len l <= i.
Proof.
  unfold getitem. pose proof (len_nonneg l) as Hlen.
  destruct (i <? 0) eqn:Hneg;
    [apply Z.ltb_lt in Hneg | apply Z.ltb_ge in Hneg].
  - destruct (i + len l <? 0) eqn:Hlow; simpl.
    + apply Z.ltb_lt in Hlow. split; [intros _; lia | reflexivity].
    + apply Z.ltb_ge in Hlow.
      destruct (len l <=? i + len l) eqn:Hhigh;
        [apply Z.leb_le in Hhigh; lia|].
      destruct (nth_error l (Z.to_nat (i + len l))) eqn:Hnth.
      * split; [discriminate | lia].
      * apply nth_error_None in Hnth. unfold len in *. lia.
  - destruct (i <? 0) eqn:Hlow; [apply Z.ltb_lt in Hlow; lia|]. simpl.
    destruct (len l <=? i) eqn:Hhigh.
    + apply Z.leb_le in Hhigh. split; [intros _; lia | reflexivity].
    + apply Z.leb_gt in Hhigh.
      destruct (nth_error l (Z.to_nat i)) eqn:Hnth.
      * split; [discriminate | lia].
      * apply nth_error_None in Hnth. unfold len in *. lia.
Qed.

Section Outcomes.
Context {py : PyStr}.

(** X19: The three outcomes of [current_card]: [None] exactly on an empty
    projection; [IndexError] exactly when the projection has cards and
    the cursor is below minus their number; a card of the projection
    otherwise. *)
Theorem current_card_outcomes (s : FlashcardState) :
  (current_card s = Ok None <-> card_count s = 0)
  /\ (current_card s = Raise IndexError
      <-> 0 < card_count s /\ current_index s < - card_count s)
  /\ (forall c, current_card s = Ok (Some c) -> In c (visible_flashcards s)).
Proof.
  unfold card_count. split; [|split].
  - split; intros H.
    + apply (proj2 (len_zero _)). now apply current_card_none.
    + apply current_card_empty. now apply (proj1 (len_zero _)).
  - unfold current_card.
    destruct (visible_flashcards s) as [|c l] eqn:Hv.
    + split; [discriminate | cbn; lia].
    + cbn [nonempty negb].
      assert (Hpos : 0 < len (c :: l)) by (apply len_pos; discriminate).
      destruct (len (c :: l) <=? current_index s) eqn:Hge.
      * apply Z.leb_le in Hge.
        destruct (getitem (c :: l) 0) as [a|e] eqn:Hget; cbn [bind].
        -- split; [discriminate | lia].
        -- destruct e. apply getitem_raises in Hget. lia.
      * apply Z.leb_gt in Hge.
        destruct (getitem (c :: l) (current_index s)) as [a|e] eqn:Hget;
          cbn [bind].
        -- split; [discriminate|]. intros [_ Hlow].
           assert (getitem (c :: l) (current_index s) = Raise IndexError)
             by (apply getitem_raises; lia).
           congruence.
        -- destruct e. apply getitem_raises in Hget.
           split; [intros _; lia | reflexivity].
  - apply current_card_visible.
Qed.

End Outcomes.

(** ** Whole sessions *)

(** Every event of the page: the handlers of the class with their
    arguments, and the inputs bound to a state variable. *)
Module Action.
Inductive t : Type :=
| NextCard
| PreviousCard
| ToggleAnswer
| AddFlashcard
| RemoveCurrentCard
| ToggleLearned
| ToggleLearnedByIndex (card_index : Z)
| ToggleLearnedByWord (english_word : string)
| ToggleFlip (card_index : option Z)
| ToggleFlipByWord (english_word : string)
| SetTempWord (word : string)
| SetTempWordAndFlip
| SetTempWordAndMarkLearned
| FlipFromData
| MarkLearnedFromData
| ToggleViewMode
| ToggleFilter
| SetNewEnglish (v : string)
| SetNewVietnamese (v : string)
| SetSearchQuery (v : string)
| SetSortAlpha (v : bool).
End Action.

(** [flip_from_data] and [mark_learned_from_data]: [pass]. *)
Definition flip_from_data (s : FlashcardState) : FlashcardState := s.

Definition mark_learned_from_data (s : FlashcardState) : FlashcardState := s.

Section Sessions.
Context {py : PyStr}.

Definition perform (s : FlashcardState) (a : Action.t) : result FlashcardState :=
  match a with
  | Action.NextCard => Ok (next_card s)
  | Action.PreviousCard => Ok (previous_card s)
  | Action.ToggleAnswer => Ok (toggle_answer s)
  | Action.AddFlashcard => Ok (add_flashcard s)
  | Action.RemoveCurrentCard => remove_current_card s
  | Action.ToggleLearned => toggle_learned s
  | Action.ToggleLearnedByIndex i => toggle_learned_by_index s i
  | Action.ToggleLearnedByWord w => Ok (toggle_learned_by_word s w)
  | Action.ToggleFlip i => Ok (toggle_flip s i)
  | Action.ToggleFlipByWord w => Ok (toggle_flip_by_word s w)
  | Action.SetTempWord w => Ok (set_temp_word s w)
  | Action.SetTempWordAndFlip => Ok (set_temp_word_and_flip s)
  | Action.SetTempWordAndMarkLearned => Ok (set_temp_word_and_mark_learned s)
  | Action.FlipFromData => Ok (flip_from_data s)
  | Action.MarkLearnedFromData => Ok (mark_learned_from_data s)
  | Action.ToggleViewMode => Ok (toggle_view_mode s)
  | Action.ToggleFilter => Ok (toggle_filter s)
  | Action.SetNewEnglish v => Ok (set_new_english s v)
  | Action.SetNewVietnamese v => Ok (set_new_vietnamese s v)
  | Action.SetSearchQuery v => Ok (set_search_query s v)
  | Action.SetSortAlpha v => Ok (set_sort_alpha s v)
  end.

(** The actions in order; an exception ends the session. *)
Fixpoint session (s : FlashcardState) (actions : list Action.t)
  : result FlashcardState :=
  match actions with
  | [] => Ok s
  | a :: actions' => s' <- perform s a ;; session s' actions'
  end.

(** An invariant of every action is an invariant of every session that
    does not raise. *)
Lemma session_invariant (P : FlashcardState -> Prop) :
  (forall s a s', P s -> perform s a = Ok s' -> P s') ->
  forall actions s s', P s -> session s actions = Ok s' -> P s'.
Proof.
  intros Hstep. induction actions as [|a actions IH]; intros s s' HP; simpl.
  - now intros [= <-].
  - destruct (perform s a) as [s1|e] eqn:Hperf; simpl; [|discriminate].
    apply IH. eapply Hstep; eassumption.
Qed.

Lemma current_card_nonneg (s : FlashcardState) :
  0 <= current_index s -> exists current, current_card s = Ok current.
Proof.
  intros Hpos. destruct (current_card s) as [current|e] eqn:Hcur.
  - now exists current.
  - exfalso. unfold current_card in Hcur.
    destruct (visible_flashcards s) as [|c l] eqn:Hv; [discriminate|].
    cbn [nonempty negb] in Hcur.
    assert (0 < len (c :: l)) by (apply len_pos; discriminate).
    destruct (len (c :: l) <=? current_index s) eqn:Hge.
    + destruct (getitem (c :: l) 0) eqn:Hget; [discriminate|].
      destruct e0. apply getitem_raises in Hget. lia.
    + apply Z.leb_gt in Hge.
      destruct (getitem (c :: l) (current_index s)) eqn:Hget; [discriminate|].
      destruct e0. apply getitem_raises in Hget. lia.
Qed.

Lemma clamp_index_nonneg (s : FlashcardState) (filtered : list Card) :
  0 <= current_index s -> 0 <= current_index (clamp_index s filtered).
Proof.
  intros Hpos. unfold clamp_index.
  destruct (len filtered <=? current_index s); simpl; lia.
Qed.

Lemma toggle_learned_by_word_index (s : FlashcardState) (w : string) :
  current_index (toggle_learned_by_word s w) = current_index s.
Proof.
  unfold toggle_learned_by_word. now destruct (find _ (visible_flashcards s)).
Qed.

Lemma perform_nonneg (s : FlashcardState) (a : Action.t) :
  0 <= current_index s ->
  exists s', perform s a = Ok s' /\ 0 <= current_index s'.
Proof.
  intros Hpos.
  destruct a; simpl;
    try (eexists; split; [reflexivity | simpl; lia || exact Hpos]).
  - eexists; split; [reflexivity|]. unfold next_card.
    destruct (nonempty (visible_flashcards s)) eqn:Hne; [|exact Hpos].
    apply nonempty_len in Hne. simpl. apply Z.mod_pos_bound. exact Hne.
  - eexists; split; [reflexivity|]. unfold previous_card.
    destruct (nonempty (visible_flashcards s)) eqn:Hne; [|exact Hpos].
    apply nonempty_len in Hne. simpl. apply Z.mod_pos_bound. exact Hne.
  - eexists; split; [reflexivity|]. unfold add_flashcard.
    destruct (truthy _ && truthy _); [|exact Hpos].
    cbv zeta. now apply clamp_index_nonneg.
  - destruct (current_card_nonneg s Hpos) as [current Hcur].
    unfold remove_current_card. rewrite Hcur. simpl.
    destruct current as [current|]; [|now exists s].
    match goal with |- context [nonempty ?l] => destruct (nonempty l) end.
    + eexists; split; [reflexivity|]. now apply clamp_index_nonneg.
    + eexists; split; [reflexivity|]. simpl. lia.
  - destruct (current_card_nonneg s Hpos) as [current Hcur].
    unfold toggle_learned. rewrite Hcur. simpl.
    destruct current; eexists; split; reflexivity || exact Hpos.
  - unfold toggle_learned_by_index.
    destruct ((0 <=? card_index) && (card_index <? len (visible_flashcards s)))
      eqn:Hin; [|now exists s].
    apply andb_true_iff in Hin. destruct Hin as [Hlo Hhi].
    apply Z.leb_le in Hlo. apply Z.ltb_lt in Hhi.
    destruct (getitem_in_range (visible_flashcards s) card_index)
      as [c [-> _]]; [lia|].
    simpl. eexists; split; [reflexivity | exact Hpos].
  - eexists; split; [reflexivity|]. now rewrite toggle_learned_by_word_index.
  - eexists; split; [reflexivity|]. now destruct card_index as [i|]; [unfold toggle_flip; destruct (list_in Z.eqb i (flipped_cards s))|].
  - eexists; split; [reflexivity|]. unfold toggle_flip_by_word.
    now destruct (list_in String.eqb english_word (flipped_words s)).
  - eexists; split; [reflexivity|]. unfold set_temp_word_and_flip.
    destruct (truthy (temp_word s)); [|exact Hpos].
    unfold toggle_flip_by_word.
    now destruct (list_in String.eqb (temp_word s) (flipped_words s)).
  - eexists; split; [reflexivity|]. unfold set_temp_word_and_mark_learned.
    destruct (truthy (temp_word s)); [|exact Hpos].
    cbv zeta. simpl current_index. now rewrite toggle_learned_by_word_index.
Qed.

(** X20: No session raises: from a cursor that is not negative, every list of
    actions runs to its end, and the cursor is not negative then. *)
Theorem session_never_raises (s0 : FlashcardState) (actions : list Action.t) :
  0 <= current_index s0 ->
  exists s, session s0 actions = Ok s /\ 0 <= current_index s.
Proof.
  revert s0. induction actions as [|a actions IH]; intros s0 Hpos; simpl.
  - now exists s0.
  - destruct (perform_nonneg s0 a Hpos) as (s1 & -> & Hpos1). simpl.
    now apply IH.
Qed.

End Sessions.

(** ** What a session keeps *)

(** A card with a word and a translation. *)
Definition filled (c : Card) : Prop := english c <> "" /\ vietnamese c <> "".

Lemma toggle_first_filled (current : Card) (cards : list Card) :
  Forall filled cards -> Forall filled (toggle_first current cards).
Proof.
  induction 1 as [|card rest Hcard Hrest IH]; simpl; [constructor|].
  destruct (card_eqb card current); constructor; trivial.
Qed.

Lemma filter_Forall {A : Type} (P : A -> Prop) (f : A -> bool) (l : list A) :
  Forall P l -> Forall P (filter f l).
Proof.
  induction 1 as [|x l Hx Hl IH]; simpl; [constructor|].
  destruct (f x); [constructor|]; trivial.
Qed.

Section Keeping.
Context {py : PyStr}.

(** The four ways an action leaves the deck: as it was; with the flag of
    one card negated; without the cards equal to one card; with the new
    card at its end. *)
Inductive deck_step (s : FlashcardState) : list Card -> Prop :=
| deck_same : deck_step s (flashcards s)
| deck_marked (c : Card) : deck_step s (toggle_first c (flashcards s))
| deck_removed (c : Card) :
    deck_step s (filter (fun card => negb (card_eqb card c)) (flashcards s))
| deck_added :
    add_accepts s = true -> deck_step s (flashcards s ++ [new_card s]).

Lemma clamp_index_flashcards (s : FlashcardState) (filtered : list Card) :
  flashcards (clamp_index s filtered) = flashcards s.
Proof. unfold clamp_index. now destruct (len filtered <=? current_index s). Qed.

Ltac deck_case :=
  simpl flashcards;
  first [exact (deck_same _) | apply deck_marked | apply deck_removed].

Lemma toggle_learned_by_word_step (s : FlashcardState) (w : string) :
  deck_step s (flashcards (toggle_learned_by_word s w)).
Proof.
  unfold toggle_learned_by_word.
  destruct (find _ (visible_flashcards s)); deck_case.
Qed.

Lemma toggle_flip_by_word_flashcards (s : FlashcardState) (w : string) :
  flashcards (toggle_flip_by_word s w) = flashcards s.
Proof. now rewrite toggle_flip_by_word_toggled. Qed.

Lemma perform_deck_step (s : FlashcardState) (a : Action.t) (s' : FlashcardState) :
  perform s a = Ok s' -> deck_step s (flashcards s').
Proof.
  destruct a; simpl; try (intros [= <-]; deck_case).
  - intros [= <-]. unfold next_card.
    destruct (nonempty (visible_flashcards s)); deck_case.
  - intros [= <-]. unfold previous_card.
    destruct (nonempty (visible_flashcards s)); deck_case.
  - intros [= <-]. destruct (add_accepts s) eqn:Hacc.
    + destruct (add_flashcard_accepted s Hacc) as [i ->]. simpl.
      now apply deck_added.
    + rewrite add_flashcard_rejected by exact Hacc. deck_case.
  - unfold remove_current_card.
    destruct (current_card s) as [[c|]|e]; simpl; try discriminate.
    + match goal with |- context [nonempty ?l] => destruct (nonempty l) end;
        intros [= <-]; rewrite ?clamp_index_flashcards; deck_case.
    + intros [= <-]. deck_case.
  - unfold toggle_learned.
    destruct (current_card s) as [[c|]|e]; simpl; try discriminate;
      intros [= <-]; deck_case.
  - unfold toggle_learned_by_index.
    destruct ((0 <=? card_index) && (card_index <? len (visible_flashcards s))).
    + destruct (getitem _ card_index) as [c|e]; simpl; try discriminate.
      intros [= <-]. deck_case.
    + intros [= <-]. deck_case.
  - intros [= <-]. apply toggle_learned_by_word_step.
  - intros [= <-]. destruct card_index as [i|]; [|deck_case].
    rewrite toggle_flip_toggled. deck_case.
  - intros [= <-]. rewrite toggle_flip_by_word_flashcards. deck_case.
  - intros [= <-]. unfold set_temp_word_and_flip.
    destruct (truthy (temp_word s)); [|deck_case].
    cbv zeta. simpl flashcards. rewrite toggle_flip_by_word_flashcards.
    deck_case.
  - intros [= <-]. unfold set_temp_word_and_mark_learned.
    destruct (truthy (temp_word s)); [|deck_case].
    cbv zeta. simpl flashcards. apply toggle_learned_by_word_step.
Qed.

Lemma deck_step_filled (s : FlashcardState) (deck : list Card) :
  deck_step s deck -> Forall filled (flashcards s) -> Forall filled deck.
Proof.
  intros Hstep Hdeck. destruct Hstep as [|c|c|Hacc].
  - exact Hdeck.
  - now apply toggle_first_filled.
  - now apply filter_Forall.
  - apply Forall_app. split; [exact Hdeck|].
    constructor; [|constructor].
    apply add_accepts_true in Hacc. exact Hacc.
Qed.

(** X21: No session makes a card with an empty word or an empty translation:
    a deck of filled cards stays one. *)
Theorem session_deck_filled
  (s0 s : FlashcardState) (actions : list Action.t) :
  Forall filled (flashcards s0) ->
  session s0 actions = Ok s ->
  Forall filled (flashcards s).
Proof.
  apply (session_invariant (fun s => Forall filled (flashcards s))).
  intros s1 a s2 Hdeck Hperf.
  eapply deck_step_filled; [|exact Hdeck].
  now apply perform_deck_step with (a := a).
Qed.

(** The words and translations of the deck, flags aside. *)
Definition texts (deck : list Card) : list (string * string) :=
  map (fun c => (english c, vietnamese c)) deck.

Lemma toggle_first_texts (current : Card) (cards : list Card) :
  texts (toggle_first current cards) = texts cards.
Proof.
  unfold texts. induction cards as [|card rest IH]; simpl; [reflexivity|].
  destruct (card_eqb card current); simpl; congruence.
Qed.

Lemma subseq_map {A B : Type} (f : A -> B) (l k : list A) :
  subseq l k -> subseq (map f l) (map f k).
Proof. induction 1; simpl; now constructor. Qed.

Lemma subseq_app_r {A : Type} (l k m : list A) :
  subseq l k -> subseq l (k ++ m).
Proof.
  intros H. induction H as [|x l k H IH|x l k H IH]; simpl.
  - induction m; now constructor.
  - now constructor.
  - now constructor.
Qed.

(** X22: No action rewrites or reorders a card: the words and translations of
    the deck after an action are those before it, in the same order,
    some removed or one added at the end. *)
Theorem perform_texts (s s' : FlashcardState) (a : Action.t) :
  perform s a = Ok s' ->
  subseq (texts (flashcards s')) (texts (flashcards s))
  \/ texts (flashcards s')
     = (texts (flashcards s)
        ++ [(strip (new_english s), strip (new_vietnamese s))])%list.
Proof.
  intros Hperf. apply perform_deck_step in Hperf.
  destruct Hperf as [|c|c|Hacc].
  - left. apply subseq_refl.
  - left. rewrite toggle_first_texts. apply subseq_refl.
  - left. apply subseq_map, subseq_filter.
  - right. unfold texts. now rewrite map_app.
Qed.

(** The state of the grid a session keeps well-formed. *)
Definition grid_ok (s : FlashcardState) : Prop :=
  (view_mode s = "single" \/ view_mode s = "grid")
  /\ NoDup (flipped_cards s)
  /\ NoDup (flipped_words s).

Lemma grid_ok_frame (s s' : FlashcardState) :
  view_mode s' = view_mode s ->
  flipped_cards s' = flipped_cards s ->
  flipped_words s' = flipped_words s ->
  grid_ok s -> grid_ok s'.
Proof. unfold grid_ok. now intros -> -> ->. Qed.

Lemma grid_ok_toggle_flip_by_word (s : FlashcardState) (w : string) :
  grid_ok s -> grid_ok (toggle_flip_by_word s w).
Proof.
  intros (Hm & Hc & Hw). rewrite toggle_flip_by_word_toggled.
  repeat split; trivial. simpl.
  apply toggled_NoDup; [exact string_eqb_iff | exact Hw].
Qed.

Lemma toggle_learned_by_word_grid (s : FlashcardState) (w : string) :
  grid_ok s -> grid_ok (toggle_learned_by_word s w).
Proof.
  unfold toggle_learned_by_word.
  destruct (find _ (visible_flashcards s)); trivial.
Qed.

Lemma perform_grid_ok (s : FlashcardState) (a : Action.t) (s' : FlashcardState) :
  grid_ok s -> perform s a = Ok s' -> grid_ok s'.
Proof.
  intros Hok.
  destruct a; simpl; try (intros [= <-]; exact Hok).
  - intros [= <-]. unfold next_card.
    now destruct (nonempty (visible_flashcards s)).
  - intros [= <-]. unfold previous_card.
    now destruct (nonempty (visible_flashcards s)).
  - intros [= <-]. unfold add_flashcard.
    destruct (truthy _ && truthy _); [|exact Hok].
    cbv zeta. unfold clamp_index.
    match goal with |- context [?a <=? ?b] => destruct (a <=? b) end;
      exact Hok.
  - unfold remove_current_card.
    destruct (current_card s) as [[c|]|e]; simpl; try discriminate.
    + match goal with |- context [nonempty ?l] => destruct (nonempty l) end;
        intros [= <-]; [|exact Hok].
      unfold clamp_index.
      match goal with |- context [?a <=? ?b] => destruct (a <=? b) end;
        exact Hok.
    + now intros [= <-].
  - unfold toggle_learned.
    destruct (current_card s) as [[c|]|e]; simpl; try discriminate;
      intros [= <-]; exact Hok.
  - unfold toggle_learned_by_index.
    destruct ((0 <=? card_index) && (card_index <? len (visible_flashcards s))).
    + destruct (getitem _ card_index) as [c|e]; simpl; try discriminate.
      intros [= <-]. exact Hok.
    + now intros [= <-].
  - intros [= <-]. now apply toggle_learned_by_word_grid.
  - intros [= <-]. destruct card_index as [i|]; [|exact Hok].
    rewrite toggle_flip_toggled. destruct Hok as (Hm & Hc & Hw).
    repeat split; trivial. simpl.
    apply toggled_NoDup; [exact Z.eqb_eq | exact Hc].
  - intros [= <-]. now apply grid_ok_toggle_flip_by_word.
  - intros [= <-]. unfold set_temp_word_and_flip.
    destruct (truthy (temp_word s)); [|exact Hok].
    cbv zeta. apply (grid_ok_frame (toggle_flip_by_word s (temp_word s)));
      try reflexivity.
    now apply grid_ok_toggle_flip_by_word.
  - intros [= <-]. unfold set_temp_word_and_mark_learned.
    destruct (truthy (temp_word s)); [|exact Hok].
    cbv zeta. apply (grid_ok_frame (toggle_learned_by_word s (temp_word s)));
      try reflexivity.
    now apply toggle_learned_by_word_grid.
  - intros [= <-]. destruct Hok as (Hm & Hc & Hw).
    repeat split; trivial; [|constructor]. simpl.
    destruct (String.eqb (view_mode s) "single"); auto.
Qed.

(** X23: Through a session the view mode is one of the two modes and neither
    list of flipped cards holds an entry twice. *)
Theorem session_grid_ok
  (s0 s : FlashcardState) (actions : list Action.t) :
  grid_ok s0 -> session s0 actions = Ok s -> grid_ok s.
Proof.
  apply (session_invariant grid_ok).
  intros s1 a s2 Hok Hperf. eapply perform_grid_ok; eassumption.
Qed.

End Keeping.

(** ** More on the projection *)

Lemma insert_head {A : Type} (key : A -> string) (x : A) (l : list A) :
  HdRel (key_le key) x l -> insert key x l = x :: l.
Proof.
  intros Hhd. destruct l as [|y l]; [reflexivity|]. simpl.
  inversion Hhd as [|? ? Hxy]; subst. unfold key_le in Hxy. now rewrite Hxy.
Qed.

Lemma sorted_of_Sorted {A : Type} (key : A -> string) (l : list A) :
  Sorted (key_le key) l -> sorted key l = l.
Proof.
  induction 1 as [|x l Hl IH Hhd]; simpl; [reflexivity|].
  rewrite IH. now apply insert_head.
Qed.

Section ProjectionFacts.
Context {py : PyStr}.

(** X24: What the projection shows is in the deck; under the learned filter
    it is not learned; and the projection is never longer than the
    deck. *)
Theorem projection_sound (s : FlashcardState) :
  (forall c, In c (visible_flashcards s) ->
     In c (flashcards s)
     /\ (filter_learned s = true -> learned c = false))
  /\ card_count s <= len (flashcards s).
Proof.
  split.
  - intros c Hc. apply visible_In, selection_keeps in Hc.
    destruct Hc as (Hdeck & Hkl & _). split; [exact Hdeck|].
    intros Hf. unfold keep_learned in Hkl. rewrite Hf in Hkl.
    now apply negb_true_iff.
  - unfold card_count. rewrite visible_len. unfold selection, len.
    apply inj_le.
    eapply Nat.le_trans; apply filter_length_le.
Qed.

(** X25: Without filter, query and sort the projection is the deck. *)
Theorem projection_plain (s : FlashcardState) :
  filter_learned s = false ->
  strip (search_query s) = "" ->
  sort_alpha s = false ->
  visible_flashcards s = flashcards s.
Proof.
  intros Hf Hq Hs. unfold visible_flashcards, filtered_flashcards, query_of.
  now rewrite Hf, Hs, str_or_empty, Hq, lower_empty.
Qed.

(** X26: Switching the sort changes the order of the projection, not its
    cards: their number is the same, and a cursor that was in its place
    still is. *)
Theorem set_sort_alpha_cursor (s : FlashcardState) (v : bool) :
  cursor_ok s ->
  card_count (set_sort_alpha s v) = card_count s
  /\ Permutation (visible_flashcards (set_sort_alpha s v)) (visible_flashcards s)
  /\ cursor_ok (set_sort_alpha s v).
Proof.
  intros Hok.
  assert (Hperm : Permutation (visible_flashcards (set_sort_alpha s v))
                    (visible_flashcards s)).
  { eapply Permutation_trans; [apply visible_perm|].
    change (selection (set_sort_alpha s v)) with (selection s).
    apply Permutation_sym, visible_perm. }
  assert (Hlen : len (visible_flashcards (set_sort_alpha s v))
                 = len (visible_flashcards s))
    by (unfold len; now rewrite (Permutation_length Hperm)).
  split; [exact Hlen|]. split; [exact Hperm|].
  destruct Hok as [Hne He]. unfold cursor_ok.
  change (current_index (set_sort_alpha s v)) with (current_index s).
  rewrite Hlen. split.
  - intros H. apply Hne. intros Hnil. apply H.
    apply (proj1 (len_zero _)). rewrite Hlen, Hnil. reflexivity.
  - intros H. apply He. apply (proj1 (len_zero _)).
    rewrite <- Hlen, H. reflexivity.
Qed.

(** X27: On a deck whose shown cards are already in alphabetical order the
    sort changes nothing. *)
Theorem sort_alpha_sorted (s : FlashcardState) :
  Sorted (fun a b => String.leb (lower (english a)) (lower (english b)) = true)
    (visible_flashcards (set_sort_alpha s false)) ->
  visible_flashcards (set_sort_alpha s true)
  = visible_flashcards (set_sort_alpha s false).
Proof.
  rewrite !visible_selection. simpl sort_alpha.
  change (selection (set_sort_alpha s true)) with (selection s).
  change (selection (set_sort_alpha s false)) with (selection s).
  intros Hsorted. apply sorted_of_Sorted.
  apply (Sorted_impl
           (fun a b => String.leb (lower (english a)) (lower (english b)) = true));
    [|exact Hsorted].
  intros a b. unfold key_le. now rewrite !sort_key_english.
Qed.

(** X13: Under the learned filter, marking the last card of a projection of
    two or more cards leaves the cursor one past the end: the projection
    lost a card and [toggle_learned] does not clamp.  [current_card] then
    falls back on the first card. *)
Theorem toggle_learned_past_end (s : FlashcardState) :
  filter_learned s = true ->
  2 <= card_count s ->
  current_index s = card_count s - 1 ->
  exists s' first,
    toggle_learned s = Ok s'
    /\ current_index s' = card_count s'
    /\ nth_error (visible_flashcards s') 0 = Some first
    /\ current_card s' = Ok (Some first).
Proof.
  intros Hf Hcount Hi. unfold card_count in *.
  destruct (current_card_within s) as [c [_ Hcur]]; [lia|].
  unfold toggle_learned. rewrite Hcur. simpl.
  set (s' := set_flashcards s (toggle_first c (flashcards s))).
  assert (Hlen : len (visible_flashcards s') = len (visible_flashcards s) - 1).
  { rewrite !visible_len. unfold s'. rewrite selection_toggle_first.
    - now rewrite Hf.
    - apply visible_In, current_card_visible, Hcur. }
  assert (Hne : visible_flashcards s' <> []).
  { intros Hnil. rewrite Hnil in Hlen. cbn in Hlen. lia. }
  destruct (current_card_beyond s' Hne) as [first [Hnth Hfirst]].
  - change (current_index s') with (current_index s). lia.
  - exists s', first. repeat split; trivial.
    change (current_index s') with (current_index s). lia.
Qed.

End ProjectionFacts.

(** ** Marking a card twice *)

Lemma filter_map_same {A : Type} (f : A -> bool) (g : A -> A) (l : list A) :
  (forall x, f (g x) = f x) -> filter f (map g l) = map g (filter f l).
Proof.
  intros Hfg. induction l as [|x l IH]; simpl; [reflexivity|].
  rewrite Hfg. destruct (f x); simpl; now rewrite IH.
Qed.

Lemma insert_map_same {A : Type} (key : A -> string) (g : A -> A)
  (x : A) (l : list A) :
  (forall y, key (g y) = key y) ->
  insert key (g x) (map g l) = map g (insert key x l).
Proof.
  intros Hkey. induction l as [|y l IH]; simpl; [reflexivity|].
  rewrite !Hkey. destruct (String.leb (key x) (key y)); simpl;
    [reflexivity | now rewrite IH].
Qed.

Lemma sorted_map_same {A : Type} (key : A -> string) (g : A -> A) (l : list A) :
  (forall y, key (g y) = key y) ->
  sorted key (map g l) = map g (sorted key l).
Proof.
  intros Hkey. induction l as [|x l IH]; simpl; [reflexivity|].
  rewrite IH. now apply insert_map_same.
Qed.

Lemma getitem_map {A : Type} (g : A -> A) (l : list A) (i : Z) :
  getitem (map g l) i
  = match getitem l i with
    | Ok a => Ok (g a)
    | Raise e => Raise e
    end.
Proof.
  unfold getitem, len. rewrite length_map.
  destruct (_ || _); [reflexivity|].
  rewrite nth_error_map. now destruct (nth_error l _).
Qed.

Lemma toggle_first_at (c : Card) (before after : list Card) :
  ~ In c before ->
  toggle_first c (before ++ c :: after)
  = (before ++ set_learned (negb (learned c)) c :: after)%list.
Proof.
  induction before as [|x before IH]; simpl; intros Hnot.
  - now rewrite card_eqb_refl.
  - destruct (card_eqb_spec x c) as [->|Hne].
    + elim Hnot. now left.
    + rewrite IH; [reflexivity|]. intros H. apply Hnot. now right.
Qed.

(** The card [current] with its flag negated, every other card as it
    is. *)
Definition mark (current : Card) (x : Card) : Card :=
  if card_eqb x current then set_learned (negb (learned current)) current else x.

Lemma map_mark_absent (current : Card) (l : list Card) :
  ~ In current l -> map (mark current) l = l.
Proof.
  induction l as [|x l IH]; simpl; [reflexivity|]. intros Hnot.
  unfold mark at 1. destruct (card_eqb_spec x current) as [->|Hne].
  - elim Hnot. now left.
  - rewrite IH; [reflexivity|]. intros H. apply Hnot. now right.
Qed.

Lemma texts_In (c : Card) (l : list Card) :
  In c l -> In (english c, vietnamese c) (texts l).
Proof.
  intros H. unfold texts.
  now apply (in_map (fun c => (english c, vietnamese c))).
Qed.

Section Twice.
Context {py : PyStr}.

Lemma mark_keep_search (s : FlashcardState) (current x : Card) :
  keep_search s (mark current x) = keep_search s x.
Proof.
  unfold mark. destruct (card_eqb_spec x current) as [->|]; reflexivity.
Qed.

Lemma mark_sort_key (current x : Card) :
  sort_key (mark current x) = sort_key x.
Proof.
  unfold mark. destruct (card_eqb_spec x current) as [->|]; reflexivity.
Qed.

Lemma visible_map_mark (s : FlashcardState) (current : Card) :
  filter_learned s = false ->
  visible_flashcards (set_flashcards s (map (mark current) (flashcards s)))
  = map (mark current) (visible_flashcards s).
Proof.
  intros Hf. rewrite !visible_selection. simpl sort_alpha.
  rewrite selection_set_flashcards. unfold selection.
  assert (Hkl : forall l, filter (keep_learned s) l = l).
  { intros l. unfold keep_learned. rewrite Hf. apply filter_true. }
  rewrite !Hkl.
  rewrite filter_map_same by (intros x; apply mark_keep_search).
  destruct (sort_alpha s); [|reflexivity].
  apply sorted_map_same. intros x. apply mark_sort_key.
Qed.

Lemma current_card_map (s s' : FlashcardState) (g : Card -> Card) (c : Card) :
  visible_flashcards s' = map g (visible_flashcards s) ->
  current_index s' = current_index s ->
  current_card s = Ok (Some c) ->
  current_card s' = Ok (Some (g c)).
Proof.
  intros Hv Hi. unfold current_card. rewrite Hv, Hi.
  assert (Hlen : len (map g (visible_flashcards s)) = len (visible_flashcards s))
    by (unfold len; now rewrite length_map).
  rewrite Hlen, !getitem_map.
  destruct (visible_flashcards s) as [|x l]; [discriminate|].
  cbn [map nonempty negb].
  destruct (len (x :: l) <=? current_index s).
  - destruct (getitem (x :: l) 0); simpl; [|discriminate].
    now intros [= ->].
  - destruct (getitem (x :: l) (current_index s)); simpl; [|discriminate].
    now intros [= ->].
Qed.

(** X14: On a deck without two cards of the same word and translation, and
    without the learned filter, [toggle_learned] undoes itself: the
    second call marks the same card and gives back the state. *)
Theorem toggle_learned_twice (s : FlashcardState) (current : Card) :
  filter_learned s = false ->
  NoDup (texts (flashcards s)) ->
  current_card s = Ok (Some current) ->
  exists s', toggle_learned s = Ok s' /\ toggle_learned s' = Ok s.
Proof.
  intros Hf Hnodup Hcur.
  assert (Hin : In current (flashcards s))
    by (apply visible_In_deck, current_card_visible, Hcur).
  destruct (toggle_first_split current (flashcards s) Hin)
    as (before & after & Hsplit & Hnot & Htog).
  set (marked := set_learned (negb (learned current)) current) in *.
  assert (Hparts : ~ In (english current, vietnamese current) (texts before)
                   /\ ~ In (english current, vietnamese current) (texts after)).
  { rewrite Hsplit in Hnodup. unfold texts in *.
    rewrite map_app in Hnodup. simpl in Hnodup.
    apply NoDup_remove_2 in Hnodup. rewrite in_app_iff in Hnodup. tauto. }
  destruct Hparts as [Hbefore Hafter].
  assert (Hdeck : toggle_first current (flashcards s)
                  = map (mark current) (flashcards s)).
  { rewrite Htog, Hsplit, map_app. simpl.
    rewrite !map_mark_absent.
    - unfold mark. now rewrite card_eqb_refl.
    - intros H. apply Hafter. now apply texts_In in H.
    - exact Hnot. }
  unfold toggle_learned at 1. rewrite Hcur. simpl.
  eexists. split; [reflexivity|].
  unfold toggle_learned.
  rewrite (current_card_map s _ (mark current) current); trivial.
  - simpl. f_equal. unfold mark at 1. rewrite card_eqb_refl. fold marked.
    rewrite Htog, toggle_first_at.
    + replace (set_learned (negb (learned marked)) marked) with current
        by (destruct current as [e v l]; unfold marked, set_learned; simpl;
            now rewrite negb_involutive).
      rewrite <- Hsplit. now destruct s.
    + intros H. apply Hbefore. now apply texts_In in H.
  - rewrite Hdeck. now apply visible_map_mark.
Qed.

End Twice.

(** With two cards of the same word and translation the second call can
    mark the other one: the deck [cat (learned), cat], cursor on the
    second, ends as [cat, cat (learned)]. *)
Example toggle_learned_twice_duplicates :
  let s := set_current_index
             (set_flashcards initial_state
                [set_learned true (card "cat" "con meo"); card "cat" "con meo"])
             1 in
  exists s1 s2,
    toggle_learned s = Ok s1
    /\ toggle_learned s1 = Ok s2
    /\ flashcards s2
       = [card "cat" "con meo"; set_learned true (card "cat" "con meo")].
Proof. do 2 eexists. repeat split. Qed.

(** ** The counter under the card *)

(** [str(n)] of an integer, as an f-string prints it. *)
Definition str_of_int (n : Z) : string := NilZero.string_of_int (Z.to_int n).

Section Counter.
Context {py : PyStr}.

(** [card_counter_text] *)
Definition card_counter_text (s : FlashcardState) : string :=
  let count := len (visible_flashcards s) in
  if count =? 0 then "No cards"
  else "Card " ++ str_of_int (current_index s + 1)
       ++ " of " ++ str_of_int count.

(** X28: The counter reads "No cards" exactly on an empty projection; with
    the cursor in its place it reads a position from 1 to the number of
    cards, and that number. *)
Theorem card_counter_text_reads (s : FlashcardState) :
  (card_counter_text s = "No cards" <-> card_count s = 0)
  /\ (cursor_ok s -> card_count s <> 0 ->
      exists position,
        1 <= position <= card_count s
        /\ position = current_index s + 1
        /\ card_counter_text s
           = "Card " ++ str_of_int position
             ++ " of " ++ str_of_int (card_count s)).
Proof.
  unfold card_counter_text, card_count. split.
  - destruct (len (visible_flashcards s) =? 0) eqn:H0.
    + apply Z.eqb_eq in H0. tauto.
    + apply Z.eqb_neq in H0. split; [discriminate | contradiction].
  - intros [Hne _] H0.
    replace (len (visible_flashcards s) =? 0) with false
      by (symmetry; now apply Z.eqb_neq).
    exists (current_index s + 1). split; [|split; reflexivity].
    assert (visible_flashcards s <> [])
      by (intros Hnil; apply H0; now rewrite Hnil).
    specialize (Hne H). lia.
Qed.

End Counter.

Example card_counter_text_scenarios :
  card_counter_text initial_state = "No cards"
  /\ card_counter_text (typed_add initial_state "cat" "con meo") = "Card 1 of 1"
  /\ card_counter_text cat_dog = "Card 2 of 2".
Proof. repeat split. Qed.

(** ** The further properties on the sessions above *)

(** The learned filter on [cat_dog], cursor on its second card. *)
Definition cat_dog_filtered : FlashcardState :=
  Eval vm_compute in next_card (toggle_filter cat_dog).

Example cat_dog_filtered_session :
  cat_dog_filtered = next_card (toggle_filter cat_dog).
Proof. reflexivity. Qed.

Example cat_dog_filtered_state :
  filter_learned cat_dog_filtered = true
  /\ card_count cat_dog_filtered = 2
  /\ current_index cat_dog_filtered = 1.
Proof. repeat split. Qed.

Lemma navigation_bounds_witness :
  visible_flashcards cat_dog <> []
  /\ 0 <= current_index (next_card cat_dog) < 2
  /\ 0 <= current_index (previous_card cat_dog) < 2.
Proof.
  split; [discriminate|].
  destruct (navigation_bounds cat_dog) as [[Hn _] [Hp _]]; [discriminate|].
  split; [exact Hn | exact Hp].
Defined.

Lemma navigation_round_trip_witness :
  0 <= current_index cat_dog < len (visible_flashcards cat_dog)
  /\ previous_card (next_card cat_dog) = set_show_answer cat_dog false.
Proof.
  assert (H : 0 <= current_index cat_dog < len (visible_flashcards cat_dog))
    by (change (0 <= 1 < 2); lia).
  split; [exact H|].
  exact (proj1 (navigation_round_trip cat_dog H)).
Defined.

Lemma navigation_wraps_witness :
  visible_flashcards cat_dog <> []
  /\ current_index cat_dog = len (visible_flashcards cat_dog) - 1
  /\ current_index (next_card cat_dog) = 0.
Proof.
  split; [discriminate|]. split; [reflexivity|].
  destruct (navigation_wraps cat_dog) as [H _]; [discriminate|].
  apply H. reflexivity.
Defined.

Lemma next_card_cycle_witness :
  0 <= current_index cat_dog < len (visible_flashcards cat_dog)
  /\ current_index
       (Nat.iter (List.length (visible_flashcards cat_dog)) next_card cat_dog)
     = current_index cat_dog.
Proof.
  assert (H : 0 <= current_index cat_dog < len (visible_flashcards cat_dog))
    by (change (0 <= 1 < 2); lia).
  split; [exact H|].
  exact (next_card_cycle cat_dog H).
Defined.

Lemma toggle_flip_by_word_twice_witness :
  list_in String.eqb "dog" (flipped_words cat_flipped) = false
  /\ toggle_flip_by_word (toggle_flip_by_word cat_flipped "dog") "dog"
     = cat_flipped.
Proof.
  split; [reflexivity|].
  destruct (toggle_flip_by_word_twice cat_flipped "dog") as [_ H].
  apply H. reflexivity.
Defined.

Lemma set_temp_word_and_flip_staged_witness :
  "cat" <> ""
  /\ flipped_words (set_temp_word_and_flip (set_temp_word cat_flipped "cat"))
     = flipped_words (toggle_flip_by_word cat_flipped "cat").
Proof.
  split; [discriminate|].
  destruct (set_temp_word_and_flip_staged cat_flipped "cat") as (_ & H & _).
  apply H. discriminate.
Defined.

Lemma toggle_learned_by_index_guarded_witness :
  ((-1 < 0 \/ len (visible_flashcards cat_dog) <= -1)
   /\ toggle_learned_by_index cat_dog (-1) = Ok cat_dog)
  /\ (0 <= 0 < len (visible_flashcards cat_dog)
      /\ exists c before after,
          nth_error (visible_flashcards cat_dog) (Z.to_nat 0) = Some c
          /\ flashcards cat_dog = (before ++ c :: after)%list
          /\ ~ In c before
          /\ toggle_learned_by_index cat_dog 0
             = Ok (set_flashcards cat_dog
                     (before
                        ++ {| english := english c;
                              vietnamese := vietnamese c;
                              learned := negb (learned c) |}
                        :: after))
          /\ toggle_learned (set_current_index cat_dog 0)
             = Ok (set_flashcards (set_current_index cat_dog 0)
                     (before
                        ++ {| english := english c;
                              vietnamese := vietnamese c;
                              learned := negb (learned c) |}
                        :: after))).
Proof.
  split; split.
  - left. lia.
  - destruct (toggle_learned_by_index_guarded cat_dog (-1)) as [H _].
    apply H. left. lia.
  - change (0 <= 0 < 2). lia.
  - destruct (toggle_learned_by_index_guarded cat_dog 0) as [_ H].
    apply H. change (0 <= 0 < 2). lia.
Defined.

Lemma toggle_learned_by_word_deck_witness :
  (exists c, In c (visible_flashcards cat_dog) /\ english c = "Dog")
  /\ exists c shown_before shown_after before after,
      visible_flashcards cat_dog = (shown_before ++ c :: shown_after)%list
      /\ (forall x, In x shown_before -> english x <> "Dog")
      /\ english c = "Dog"
      /\ flashcards cat_dog = (before ++ c :: after)%list
      /\ ~ In c before
      /\ toggle_learned_by_word cat_dog "Dog"
         = set_flashcards cat_dog
             (before
                ++ {| english := english c;
                      vietnamese := vietnamese c;
                      learned := negb (learned c) |}
                :: after).
Proof.
  assert (H : exists c, In c (visible_flashcards cat_dog) /\ english c = "Dog").
  { exists (card "Dog" "con cho"). split; [right; left|]; reflexivity. }
  split; [exact H|].
  exact (proj2 (toggle_learned_by_word_deck cat_dog "Dog") H).
Defined.

Lemma marking_frame_witness :
  toggle_learned_by_word cat_dog "Dog" = toggle_learned_by_word cat_dog "Dog"
  /\ map english (flashcards (toggle_learned_by_word cat_dog "Dog"))
     = map english (flashcards cat_dog).
Proof.
  split; [reflexivity|].
  apply (marking_frame cat_dog 0 "Dog" (toggle_learned_by_word cat_dog "Dog")).
  right. right. reflexivity.
Defined.

Lemma toggle_learned_card_count_witness :
  current_card cat_dog_filtered = Ok (Some (card "Dog" "con cho"))
  /\ exists s',
      toggle_learned cat_dog_filtered = Ok s'
      /\ card_count s'
         = card_count cat_dog_filtered
           - (if filter_learned cat_dog_filtered then 1 else 0)
      /\ current_index s' = current_index cat_dog_filtered.
Proof.
  split; [reflexivity|].
  apply (toggle_learned_card_count cat_dog_filtered (card "Dog" "con cho")).
  reflexivity.
Defined.

Lemma remove_current_card_gone_witness :
  current_card cat_dog = Ok (Some (card "Dog" "con cho"))
  /\ exists s',
      remove_current_card cat_dog = Ok s'
      /\ ~ In (card "Dog" "con cho") (flashcards s')
      /\ ~ In (card "Dog" "con cho") (visible_flashcards s')
      /\ (forall c, c <> card "Dog" "con cho" ->
            In c (flashcards s') <-> In c (flashcards cat_dog))
      /\ subseq (flashcards s') (flashcards cat_dog).
Proof.
  split; [reflexivity|].
  apply (remove_current_card_gone cat_dog (card "Dog" "con cho")).
  reflexivity.
Defined.

Lemma remove_current_card_shrinks_witness :
  current_card cat_cat = Ok (Some (card "cat" "con meo"))
  /\ exists s',
      remove_current_card cat_cat = Ok s' /\ card_count s' < card_count cat_cat.
Proof.
  split; [reflexivity|].
  apply (remove_current_card_shrinks cat_cat (card "cat" "con meo")).
  reflexivity.
Defined.

Lemma add_flashcard_visible_witness :
  (strip (new_english form_filled) <> ""
   /\ strip (new_vietnamese form_filled) <> ""
   /\ sort_alpha form_filled = false)
  /\ visible_flashcards (add_flashcard form_filled)
     = (visible_flashcards form_filled
        ++ (if keep_search form_filled (new_card form_filled)
            then [new_card form_filled] else []))%list.
Proof.
  split; [repeat split; discriminate|].
  destruct (add_flashcard_visible form_filled) as [_ H];
    [discriminate | discriminate |].
  apply H. reflexivity.
Defined.

Lemma add_flashcard_cursor_witness :
  cursor_ok cat_dog
  /\ current_index
       (add_flashcard
          (set_new_vietnamese (set_new_english cat_dog "owl") "con cu"))
     = 1.
Proof.
  assert (H : forall s, visible_flashcards s = visible_flashcards cat_dog ->
                        current_index s = 1 -> cursor_ok s).
  { intros s Hv Hi. unfold cursor_ok. rewrite Hv, Hi. split.
    - intros _. change (0 <= 1 < 2). lia.
    - discriminate. }
  split; [apply H; reflexivity|].
  apply (add_flashcard_cursor
           (set_new_vietnamese (set_new_english cat_dog "owl") "con cu")).
  apply H; reflexivity.
Defined.

Lemma session_never_raises_witness :
  0 <= current_index initial_state
  /\ exists s,
      session initial_state
        [Action.SetNewEnglish "cat"; Action.SetNewVietnamese "con meo";
         Action.AddFlashcard; Action.ToggleLearned; Action.ToggleFilter;
         Action.PreviousCard; Action.SetSearchQuery "zz";
         Action.ToggleLearnedByIndex 3; Action.RemoveCurrentCard]
      = Ok s
      /\ 0 <= current_index s.
Proof.
  split; [discriminate|].
  apply (session_never_raises initial_state). discriminate.
Defined.

Lemma session_deck_filled_witness :
  (Forall filled (flashcards initial_state)
   /\ session initial_state
        [Action.SetNewEnglish "cat"; Action.SetNewVietnamese "con meo";
         Action.AddFlashcard; Action.SetNewEnglish "  "; Action.AddFlashcard]
      = Ok (set_new_english (typed_add initial_state "cat" "con meo") "  "))
  /\ Forall filled
       (flashcards (set_new_english (typed_add initial_state "cat" "con meo") "  ")).
Proof.
  split; [split; [constructor | reflexivity]|].
  apply (session_deck_filled initial_state _
           [Action.SetNewEnglish "cat"; Action.SetNewVietnamese "con meo";
            Action.AddFlashcard; Action.SetNewEnglish "  "; Action.AddFlashcard]).
  - constructor.
  - reflexivity.
Defined.

Lemma perform_texts_witness :
  perform cat_dog Action.ToggleLearned
  = Ok (set_flashcards cat_dog
          [card "cat" "con meo"; set_learned true (card "Dog" "con cho")])
  /\ (subseq
        (texts [card "cat" "con meo"; set_learned true (card "Dog" "con cho")])
        (texts (flashcards cat_dog))
      \/ texts [card "cat" "con meo"; set_learned true (card "Dog" "con cho")]
         = (texts (flashcards cat_dog)
            ++ [(strip (new_english cat_dog), strip (new_vietnamese cat_dog))])%list).
Proof.
  split; [reflexivity|].
  apply (perform_texts cat_dog
           (set_flashcards cat_dog
              [card "cat" "con meo"; set_learned true (card "Dog" "con cho")])
           Action.ToggleLearned).
  reflexivity.
Defined.

Lemma session_grid_ok_witness :
  (grid_ok initial_state
   /\ session initial_state
        [Action.ToggleViewMode; Action.SetTempWord "cat";
         Action.SetTempWordAndFlip; Action.ToggleFlip (Some 2)]
      = Ok (toggle_flip
              (set_temp_word_and_flip
                 (set_temp_word (toggle_view_mode initial_state) "cat"))
              (Some 2)))
  /\ grid_ok
       (toggle_flip
          (set_temp_word_and_flip
             (set_temp_word (toggle_view_mode initial_state) "cat"))
          (Some 2)).
Proof.
  assert (H : grid_ok initial_state)
    by (split; [now left | split; constructor]).
  split; [split; [exact H | reflexivity]|].
  apply (session_grid_ok initial_state _
           [Action.ToggleViewMode; Action.SetTempWord "cat";
            Action.SetTempWordAndFlip; Action.ToggleFlip (Some 2)] H).
  reflexivity.
Defined.

Lemma projection_sound_witness :
  (In (card "Dog" "con cho") (visible_flashcards cat_dog_filtered)
   /\ filter_learned cat_dog_filtered = true)
  /\ In (card "Dog" "con cho") (flashcards cat_dog_filtered)
  /\ learned (card "Dog" "con cho") = false.
Proof.
  assert (H : In (card "Dog" "con cho") (visible_flashcards cat_dog_filtered))
    by (right; left; reflexivity).
  split; [split; [exact H | reflexivity]|].
  destruct (projection_sound cat_dog_filtered) as [Hs _].
  destruct (Hs _ H) as [Hd Hl]. split; [exact Hd | now apply Hl].
Defined.

Lemma projection_plain_witness :
  (filter_learned cat_dog = false
   /\ strip (search_query cat_dog) = ""
   /\ sort_alpha cat_dog = false)
  /\ visible_flashcards cat_dog = flashcards cat_dog.
Proof.
  split; [repeat split|].
  apply (projection_plain cat_dog); reflexivity.
Defined.

Lemma set_sort_alpha_cursor_witness :
  cursor_ok cat_dog /\ cursor_ok (set_sort_alpha cat_dog true).
Proof.
  assert (H : cursor_ok cat_dog).
  { split; [intros _; change (0 <= 1 < 2); lia | discriminate]. }
  split; [exact H|].
  apply (set_sort_alpha_cursor cat_dog true H).
Defined.

Lemma sort_alpha_sorted_witness :
  Sorted (fun a b => String.leb (lower (english a)) (lower (english b)) = true)
    (visible_flashcards (set_sort_alpha cat_dog false))
  /\ visible_flashcards (set_sort_alpha cat_dog true)
     = visible_flashcards (set_sort_alpha cat_dog false).
Proof.
  assert (H : Sorted
                (fun a b => String.leb (lower (english a)) (lower (english b)) = true)
                (visible_flashcards (set_sort_alpha cat_dog false))).
  { repeat constructor. }
  split; [exact H|].
  exact (sort_alpha_sorted cat_dog H).
Defined.

Lemma toggle_learned_past_end_witness :
  (filter_learned cat_dog_filtered = true
   /\ 2 <= card_count cat_dog_filtered
   /\ current_index cat_dog_filtered = card_count cat_dog_filtered - 1)
  /\ exists s' first,
      toggle_learned cat_dog_filtered = Ok s'
      /\ current_index s' = card_count s'
      /\ nth_error (visible_flashcards s') 0 = Some first
      /\ current_card s' = Ok (Some first).
Proof.
  split; [repeat split; discriminate|].
  apply (toggle_learned_past_end cat_dog_filtered);
    [reflexivity | discriminate | reflexivity].
Defined.

Lemma toggle_learned_twice_witness :
  (filter_learned cat_dog = false
   /\ NoDup (texts (flashcards cat_dog))
   /\ current_card cat_dog = Ok (Some (card "Dog" "con cho")))
  /\ exists s', toggle_learned cat_dog = Ok s' /\ toggle_learned s' = Ok cat_dog.
Proof.
  assert (H : NoDup (texts (flashcards cat_dog))).
  { constructor; [|constructor; [|constructor]].
    - intros [H|[]]. discriminate H.
    - intros []. }
  split; [split; [reflexivity | split; [exact H | reflexivity]]|].
  apply (toggle_learned_twice cat_dog (card "Dog" "con cho"));
    [reflexivity | exact H | reflexivity].
Defined.

Lemma card_counter_text_reads_witness :
  (cursor_ok cat_dog /\ card_count cat_dog <> 0)
  /\ exists position,
      1 <= position <= card_count cat_dog
      /\ position = current_index cat_dog + 1
      /\ card_counter_text cat_dog
         = "Card " ++ str_of_int position
           ++ " of " ++ str_of_int (card_count cat_dog).
Proof.
  assert (H : cursor_ok cat_dog).
  { split; [intros _; change (0 <= 1 < 2); lia | discriminate]. }
  split; [split; [exact H | discriminate]|].
  destruct (card_counter_text_reads cat_dog) as [_ Hr].
  apply Hr; [exact H | discriminate].
Defined.
